(** * Reflection: the shared gesture surface of the gallery

    A shallow embedding of [src/components/gallery/Reflection.tsx].

    - JavaScript numbers are modelled as exact rationals ([Q]); the strict
      comparison [===] on numbers is [Qeq_bool], [>=] and [>] are [Qle_bool]
      and its negation.
    - A reanimated shared value is a cell holding the value a read of
      [.value] returns and the animation currently driving it, if any.
      Assigning a plain number replaces the value and drops the animation;
      assigning [withTiming]/[withDecay] keeps the value and installs the
      animation.
    - The closures handed to [withTiming] are defunctionalised: each one is a
      constructor of [Callback] carrying what the closure captures, and
      [run_callback] is its body.
    - Calls that leave the UI thread ([runOnJS], the user's callbacks) are
      returned by the handlers as a list of [JSCall].
    - An animation that is cancelled or overwritten is dropped from its
      cell.  The host runs the callback of an animation once it ends; that
      later step is [scroll_animation_end] and [translateY_animation_end],
      not a part of the handler that installed or dropped the animation.
    - The utilities imported from [commons/utils] ([clamp], [snapPoint],
      [pinchTransform], [getSwipeDirection]) are not part of the sources at
      hand: the handlers take them as parameters.
    - The single tap and the pinch go through [crop] and [usePinchCommons],
      which are not part of the sources either; they are left out. *)

From Stdlib Require Import ZArith QArith Qminmax Qabs Lqa Lia List Bool.
Import ListNotations.

Open Scope Q_scope.

(** ** Data model *)

Record Vector (A : Type) : Type := mkVector { x : A; y : A }.
Arguments mkVector {A} _ _.
Arguments x {A} _.
Arguments y {A} _.

Record SizeVector : Type := mkSize { width : Q; height : Q }.

Inductive SwipeDirection : Type := UP | DOWN | LEFT | RIGHT.

Inductive Easing : Type := Linear | DefaultEasing.

Record TimingConfig : Type := mkConfig { duration : Q; easing : Easing }.

(** The three completion closures of the component. *)
Inductive Callback : Type :=
| SnapCallback (changed : bool)  (* snapToScrollPosition; captures toScroll !== current *)
| SwipeCallback (toIndex : Q)    (* onSwipe; captures toIndex *)
| PullCallback.                  (* pan.onEnd while pulling vertically *)

Inductive Animation : Type :=
| withTiming (toValue : Q) (userConfig : option TimingConfig)
             (callback : option Callback)
| withDecay (velocity : Q) (clampLo clampHi : Q).

Record SharedValue : Type := mkShared
  { value : Q; animation : option Animation }.

(** What the right-hand side of [sv.value = ...] can be. *)
Inductive Assigned : Type :=
| Plain (v : Q)
| Animated (a : Animation).

Definition assign (sv : SharedValue) (a : Assigned) : SharedValue :=
  match a with
  | Plain v => {| value := v; animation := None |}
  | Animated an => {| value := value sv; animation := Some an |}
  end.

Definition cancelAnimation (sv : SharedValue) : SharedValue :=
  {| value := value sv; animation := None |}.

Definition useSharedValue (v : Q) : SharedValue :=
  {| value := v; animation := None |}.

Definition useVector (vx vy : Q) : Vector SharedValue :=
  mkVector (useSharedValue vx) (useSharedValue vy).

Definition set_x {A} (v : Vector A) (a : A) : Vector A := mkVector a (y v).
Definition set_y {A} (v : Vector A) (a : A) : Vector A := mkVector (x v) a.

Record PanGestureEvent : Type := mkPan
  { translationX : Q; translationY : Q;
    velocityX : Q; velocityY : Q;
    absoluteX : Q; absoluteY : Q }.

(** The tap event; its fields [x] and [y] are named [tapX] and [tapY]. *)
Record TapGestureEvent : Type := mkTap { tapX : Q; tapY : Q }.

(** Argument of [pinchTransform]. *)
Record PinchOptions : Type := mkPinchOptions
  { pt_toScale : Q; pt_fromScale : Q;
    pt_origin : Vector Q; pt_delta : Vector Q; pt_offset : Vector Q }.

(** Second argument of [getSwipeDirection]. *)
Record SwipeOptions : Type := mkSwipeOptions
  { sw_boundaries : Vector Q; sw_time : Q;
    sw_position : Vector Q; sw_translate : Vector Q }.

(** The props the handlers read; an optional callback is its presence. *)
Record ReflectionProps : Type := mkProps
  { length : Q;
    maxScale : Q;
    itemSize : Q;
    vertical : bool;
    onPanStart : bool;
    onPanEnd : bool;
    onUserSwipe : bool;
    onVerticalPull : bool }.

(** Calls made to the JS side. *)
Inductive JSCall : Type :=
| CallPanStart (e : PanGestureEvent)
| CallPanEnd (e : PanGestureEvent)
| CallUserSwipe (d : SwipeDirection)
| CallVerticalPull (translateY : Q) (released : bool).

(** The gallery context and the component's own shared values. *)
Record State : Type := mkState
  { activeIndex : Q;
    fetchIndex : Q;
    scroll : SharedValue;
    scrollOffset : Q;
    isScrolling : bool;
    rootSize : SizeVector;
    rootChildSize : SizeVector;
    translate : Vector SharedValue;
    scale : SharedValue;
    offset : Vector Q;
    detectorTranslate : Vector SharedValue;
    detectorScale : SharedValue;
    time : Q;
    position : Vector Q;
    isPullingVertical : bool;
    pullReleased : bool }.

Definition set_activeIndex (v : Q) (s : State) : State :=
  mkState v (fetchIndex s) (scroll s) (scrollOffset s) (isScrolling s)
    (rootSize s) (rootChildSize s) (translate s) (scale s) (offset s)
    (detectorTranslate s) (detectorScale s) (time s) (position s)
    (isPullingVertical s) (pullReleased s).

Definition set_fetchIndex (v : Q) (s : State) : State :=
  mkState (activeIndex s) v (scroll s) (scrollOffset s) (isScrolling s)
    (rootSize s) (rootChildSize s) (translate s) (scale s) (offset s)
    (detectorTranslate s) (detectorScale s) (time s) (position s)
    (isPullingVertical s) (pullReleased s).

Definition set_scroll (v : SharedValue) (s : State) : State :=
  mkState (activeIndex s) (fetchIndex s) v (scrollOffset s) (isScrolling s)
    (rootSize s) (rootChildSize s) (translate s) (scale s) (offset s)
    (detectorTranslate s) (detectorScale s) (time s) (position s)
    (isPullingVertical s) (pullReleased s).

Definition set_scrollOffset (v : Q) (s : State) : State :=
  mkState (activeIndex s) (fetchIndex s) (scroll s) v (isScrolling s)
    (rootSize s) (rootChildSize s) (translate s) (scale s) (offset s)
    (detectorTranslate s) (detectorScale s) (time s) (position s)
    (isPullingVertical s) (pullReleased s).

Definition set_isScrolling (v : bool) (s : State) : State :=
  mkState (activeIndex s) (fetchIndex s) (scroll s) (scrollOffset s) v
    (rootSize s) (rootChildSize s) (translate s) (scale s) (offset s)
    (detectorTranslate s) (detectorScale s) (time s) (position s)
    (isPullingVertical s) (pullReleased s).

Definition set_translate (v : Vector SharedValue) (s : State) : State :=
  mkState (activeIndex s) (fetchIndex s) (scroll s) (scrollOffset s)
    (isScrolling s) (rootSize s) (rootChildSize s) v (scale s) (offset s)
    (detectorTranslate s) (detectorScale s) (time s) (position s)
    (isPullingVertical s) (pullReleased s).

Definition set_scale (v : SharedValue) (s : State) : State :=
  mkState (activeIndex s) (fetchIndex s) (scroll s) (scrollOffset s)
    (isScrolling s) (rootSize s) (rootChildSize s) (translate s) v (offset s)
    (detectorTranslate s) (detectorScale s) (time s) (position s)
    (isPullingVertical s) (pullReleased s).

Definition set_offset (v : Vector Q) (s : State) : State :=
  mkState (activeIndex s) (fetchIndex s) (scroll s) (scrollOffset s)
    (isScrolling s) (rootSize s) (rootChildSize s) (translate s) (scale s) v
    (detectorTranslate s) (detectorScale s) (time s) (position s)
    (isPullingVertical s) (pullReleased s).

Definition set_detectorTranslate (v : Vector SharedValue) (s : State) : State :=
  mkState (activeIndex s) (fetchIndex s) (scroll s) (scrollOffset s)
    (isScrolling s) (rootSize s) (rootChildSize s) (translate s) (scale s)
    (offset s) v (detectorScale s) (time s) (position s)
    (isPullingVertical s) (pullReleased s).

Definition set_detectorScale (v : SharedValue) (s : State) : State :=
  mkState (activeIndex s) (fetchIndex s) (scroll s) (scrollOffset s)
    (isScrolling s) (rootSize s) (rootChildSize s) (translate s) (scale s)
    (offset s) (detectorTranslate s) v (time s) (position s)
    (isPullingVertical s) (pullReleased s).

Definition set_time (v : Q) (s : State) : State :=
  mkState (activeIndex s) (fetchIndex s) (scroll s) (scrollOffset s)
    (isScrolling s) (rootSize s) (rootChildSize s) (translate s) (scale s)
    (offset s) (detectorTranslate s) (detectorScale s) v (position s)
    (isPullingVertical s) (pullReleased s).

Definition set_position (v : Vector Q) (s : State) : State :=
  mkState (activeIndex s) (fetchIndex s) (scroll s) (scrollOffset s)
    (isScrolling s) (rootSize s) (rootChildSize s) (translate s) (scale s)
    (offset s) (detectorTranslate s) (detectorScale s) (time s) v
    (isPullingVertical s) (pullReleased s).

Definition set_isPullingVertical (v : bool) (s : State) : State :=
  mkState (activeIndex s) (fetchIndex s) (scroll s) (scrollOffset s)
    (isScrolling s) (rootSize s) (rootChildSize s) (translate s) (scale s)
    (offset s) (detectorTranslate s) (detectorScale s) (time s) (position s)
    v (pullReleased s).

Definition set_pullReleased (v : bool) (s : State) : State :=
  mkState (activeIndex s) (fetchIndex s) (scroll s) (scrollOffset s)
    (isScrolling s) (rootSize s) (rootChildSize s) (translate s) (scale s)
    (offset s) (detectorTranslate s) (detectorScale s) (time s) (position s)
    (isPullingVertical s) v.

(** Sequencing of statements: [s ;> f] runs [f] on the state [s]. *)
Notation "s ;> f" := (f s) (at level 61, left associativity, only parsing).

(** ** Numeric primitives of the host language *)

(** [Math.sign]. *)
Definition sign (q : Q) : Q :=
  match q ?= 0 with
  | Lt => -1
  | Eq => 0
  | Gt => 1
  end.

(** [a > b] on numbers. *)
Definition Qgt_bool (a b : Q) : bool := negb (Qle_bool a b).

Definition minScale : Q := 1.
Definition config : TimingConfig := {| duration := 300; easing := Linear |}.

(** Assignments to the animated cells of the state. *)
Definition write_scroll (a : Assigned) (s : State) : State :=
  set_scroll (assign (scroll s) a) s.

Definition write_translate_x (a : Assigned) (s : State) : State :=
  set_translate (set_x (translate s) (assign (x (translate s)) a)) s.

Definition write_translate_y (a : Assigned) (s : State) : State :=
  set_translate (set_y (translate s) (assign (y (translate s)) a)) s.

Definition write_scale (a : Assigned) (s : State) : State :=
  set_scale (assign (scale s) a) s.

Definition write_detectorTranslate_x (a : Assigned) (s : State) : State :=
  set_detectorTranslate
    (set_x (detectorTranslate s) (assign (x (detectorTranslate s)) a)) s.

Definition write_detectorTranslate_y (a : Assigned) (s : State) : State :=
  set_detectorTranslate
    (set_y (detectorTranslate s) (assign (y (detectorTranslate s)) a)) s.

Definition write_detectorScale (a : Assigned) (s : State) : State :=
  set_detectorScale (assign (detectorScale s) a) s.

(** ** The component *)

Section Reflection.

(** The imported utilities. *)
Variable clamp : Q -> Q -> Q -> Q.
Variable snapPoint : Q -> Q -> list Q -> Q.
Variable pinchTransform : PinchOptions -> Vector Q.
Variable getSwipeDirection :
  PanGestureEvent -> SwipeOptions -> option SwipeDirection.

Variable props : ReflectionProps.

Definition boundsFn (st : State) (scaleValue : Q) : Vector Q :=
  let cWidth := width (rootChildSize st) in
  let cHeight := height (rootChildSize st) in
  let rWidth := width (rootSize st) in
  let rHeight := height (rootSize st) in
  let boundX := Qmax 0 (cWidth * scaleValue - rWidth) / 2 in
  let boundY := Qmax 0 (cHeight * scaleValue - rHeight) / 2 in
  {| x := boundX; y := boundY |}.

Definition reset (toX toY toScale : Q) (animate : bool) (st : State)
  : State :=
  let to v := if animate then Animated (withTiming v None None)
              else Plain v in
  let s1 := write_detectorTranslate_x (Plain (value (x (translate st)))) st in
  let s2 := write_detectorTranslate_y (Plain (value (y (translate s1)))) s1 in
  let s3 := write_detectorScale (Plain (value (scale s2))) s2 in
  s3 ;> write_translate_x (to toX)
     ;> write_translate_y (to toY)
     ;> write_scale (to toScale)
     ;> write_detectorTranslate_x (to toX)
     ;> write_detectorTranslate_y (to toY)
     ;> write_detectorScale (to toScale).

Definition snapToScrollPosition (e : PanGestureEvent) (st : State) : State :=
  let index := activeIndex st in
  let prev := itemSize props * clamp (index - 1) 0 (length props - 1) in
  let current := itemSize props * index in
  let next := itemSize props * clamp (index + 1) 0 (length props - 1) in
  let velocity := if vertical props then velocityY e else velocityX e in
  let toScroll := snapPoint (value (scroll st)) velocity [prev; current; next] in
  let changed := negb (Qeq_bool toScroll current) in
  let s1 :=
    if changed
    then set_fetchIndex
           (index + (if Qeq_bool toScroll next then 1 else -1)) st
    else st in
  write_scroll
    (Animated (withTiming toScroll (Some config) (Some (SnapCallback changed))))
    s1.

Definition is_dir (d d' : SwipeDirection) : bool :=
  match d, d' with
  | UP, UP | DOWN, DOWN | LEFT, LEFT | RIGHT, RIGHT => true
  | _, _ => false
  end.

(** The index [onSwipe] aims at, before the comparison with [activeIndex]. *)
Definition swipeTarget (direction : SwipeDirection) (st : State) : Q :=
  let toIndex := activeIndex st in
  let toIndex :=
    if is_dir direction UP && vertical props then toIndex + 1 else toIndex in
  let toIndex :=
    if is_dir direction DOWN && vertical props then toIndex - 1 else toIndex in
  let toIndex :=
    if is_dir direction LEFT && negb (vertical props)
    then toIndex + 1 else toIndex in
  let toIndex :=
    if is_dir direction RIGHT && negb (vertical props)
    then toIndex - 1 else toIndex in
  clamp toIndex 0 (length props - 1).

Definition onSwipe (direction : SwipeDirection) (st : State) : State :=
  let toIndex := swipeTarget direction st in
  if Qeq_bool toIndex (activeIndex st) then st
  else
    st ;> set_fetchIndex toIndex
       ;> write_scroll
            (Animated (withTiming (toIndex * itemSize props) (Some config)
                         (Some (SwipeCallback toIndex)))).

(** Bodies of the completion closures. *)
Definition run_callback (cb : Callback) (finished : bool) (st : State)
  : State :=
  match cb with
  | SnapCallback changed =>
      let s1 := st ;> set_activeIndex (fetchIndex st)
                   ;> set_isScrolling false in
      if changed then reset 0 0 minScale false s1 else s1
  | SwipeCallback toIndex =>
      st ;> set_activeIndex toIndex
         ;> set_isScrolling false
         ;> reset 0 0 minScale false
  | PullCallback =>
      st ;> set_isPullingVertical (negb finished)
         ;> set_pullReleased (negb finished)
  end.

(** The end of an animation on a cell: a finished timing animation leaves
    the cell at its target; the animation is removed and the callback to
    run, if any, is returned. *)
Definition end_animation (finished : bool) (sv : SharedValue)
  : SharedValue * option Callback :=
  match animation sv with
  | Some (withTiming toValue _ cb) =>
      ({| value := if finished then toValue else value sv;
          animation := None |}, cb)
  | Some (withDecay _ _ _) => (cancelAnimation sv, None)
  | None => (sv, None)
  end.

Definition scroll_animation_end (finished : bool) (st : State) : State :=
  let '(sv, cb) := end_animation finished (scroll st) in
  let s1 := set_scroll sv st in
  match cb with
  | Some c => run_callback c finished s1
  | None => s1
  end.

Definition translateY_animation_end (finished : bool) (st : State) : State :=
  let '(sv, cb) := end_animation finished (y (translate st)) in
  let s1 := set_translate (set_y (translate st) sv) st in
  match cb with
  | Some c => run_callback c finished s1
  | None => s1
  end.

(** The reaction on (translate.y, scale, isPullingVertical, pullReleased). *)
Definition verticalPull_reaction (st : State) : list JSCall :=
  let val_translate := value (y (translate st)) in
  let val_scale := value (scale st) in
  let val_isPulling := isPullingVertical st in
  let val_released := pullReleased st in
  let shouldPull :=
    negb (vertical props) && Qeq_bool val_scale 1 && val_isPulling in
  if shouldPull && onVerticalPull props
  then [CallVerticalPull val_translate val_released]
  else [].

(** The reaction on the root size. *)
Definition rootSize_reaction (st : State) : State :=
  reset 0 0 minScale false st.

(** [pan.onStart]; [now] is the reading of [performance.now()]. *)
Definition pan_onStart (now : Q) (e : PanGestureEvent) (st : State)
  : State * list JSCall :=
  let calls := if onPanStart props then [CallPanStart e] else [] in
  let s1 :=
    st ;> set_translate
            (mkVector (cancelAnimation (x (translate st)))
                      (cancelAnimation (y (translate st)))) in
  let s2 :=
    s1 ;> set_detectorTranslate
            (mkVector (cancelAnimation (x (detectorTranslate s1)))
                      (cancelAnimation (y (detectorTranslate s1)))) in
  let isVerticalPan := Qgt_bool (Qabs (velocityY e)) (Qabs (velocityX e)) in
  let s3 :=
    s2 ;> set_isPullingVertical
            (isVerticalPan && Qeq_bool (value (scale s2)) 1
             && negb (vertical props))
       ;> set_isScrolling true
       ;> set_time now
       ;> set_position (mkVector (absoluteX e) (absoluteY e)) in
  let s4 := set_scrollOffset (value (scroll s3)) s3 in
  let s5 :=
    set_offset (mkVector (value (x (translate s4))) (value (y (translate s4))))
      s4 in
  (s5, calls).

Definition pan_onUpdate (e : PanGestureEvent) (st : State) : State :=
  if isPullingVertical st
  then write_translate_y (Plain (translationY e)) st
  else
    let toX := x (offset st) + translationX e in
    let toY := y (offset st) + translationY e in
    let bounds := boundsFn st (value (scale st)) in
    let boundX := x bounds in
    let boundY := y bounds in
    let exceedX := Qmax 0 (Qabs toX - boundX) in
    let exceedY := Qmax 0 (Qabs toY - boundY) in
    let scrollX := -1 * sign toX * exceedX in
    let scrollY := -1 * sign toY * exceedY in
    st ;> write_scroll
            (Plain (clamp
                      (scrollOffset st
                       + (if vertical props then scrollY else scrollX))
                      0 ((length props - 1) * itemSize props)))
       ;> write_translate_x (Plain (clamp toX (-1 * boundX) boundX))
       ;> write_translate_y (Plain (clamp toY (-1 * boundY) boundY))
       ;> write_detectorTranslate_x (Plain (clamp toX (-1 * boundX) boundX))
       ;> write_detectorTranslate_y (Plain (clamp toY (-1 * boundY) boundY)).

Definition pan_onEnd (e : PanGestureEvent) (st : State)
  : State * list JSCall :=
  let bounds := boundsFn st (value (scale st)) in
  let direction :=
    getSwipeDirection e
      {| sw_boundaries := bounds;
         sw_time := time st;
         sw_position := mkVector (x (position st)) (y (position st));
         sw_translate :=
           mkVector
             (if isPullingVertical st then 100 else value (x (translate st)))
             (if isPullingVertical st then 0 else value (y (translate st)))
      |} in
  let s1 := match direction with
            | Some d => onSwipe d st
            | None => st
            end in
  let calls1 := match direction with
                | Some d => if onUserSwipe props then [CallUserSwipe d] else []
                | None => []
                end in
  if isPullingVertical s1
  then
    (s1 ;> set_pullReleased true
        ;> write_translate_y (Animated (withTiming 0 None (Some PullCallback))),
     calls1)
  else
    let isSwipingH := match direction with
                      | Some LEFT | Some RIGHT => true
                      | _ => false
                      end in
    let isSwipingV := match direction with
                      | Some UP | Some DOWN => true
                      | _ => false
                      end in
    let undefined := match direction with None => true | Some _ => false end in
    let snapV := vertical props && (undefined || isSwipingH) in
    let snapH := negb (vertical props) && (undefined || isSwipingV) in
    let calls2 := if onPanEnd props then [CallPanEnd e] else [] in
    let s2 := if snapV || snapH then snapToScrollPosition e s1 else s1 in
    let configX := withDecay (velocityX e) (- x bounds) (x bounds) in
    let configY := withDecay (velocityY e) (- y bounds) (y bounds) in
    (s2 ;> write_translate_x (Animated configX)
        ;> write_translate_y (Animated configY)
        ;> write_detectorTranslate_x (Animated configX)
        ;> write_detectorTranslate_y (Animated configY),
     calls1 ++ calls2).

(** The target scale of a double tap. *)
Definition doubleTap_toScale (st : State) : Q :=
  if Qle_bool (maxScale props * (8 # 10)) (value (scale st))
  then minScale else maxScale props.

Definition doubleTap_onEnd (e : TapGestureEvent) (st : State) : State :=
  let originX := tapX e - width (rootSize st) / 2 in
  let originY := tapY e - height (rootSize st) / 2 in
  let toScale := doubleTap_toScale st in
  let r :=
    pinchTransform
      {| pt_toScale := toScale;
         pt_fromScale := value (scale st);
         pt_origin := mkVector originX originY;
         pt_delta := mkVector 0 0;
         pt_offset :=
           mkVector (value (x (translate st))) (value (y (translate st))) |} in
  let bounds := boundsFn st toScale in
  let boundX := x bounds in
  let boundY := y bounds in
  let toX := clamp (x r) (-1 * boundX) boundX in
  let toY := clamp (y r) (-1 * boundY) boundY in
  reset toX toY toScale true st.

End Reflection.

(** ** Reference instances of the imported utilities *)

(** The theorems below hold for every choice of the imported utilities that
    meets the stated hypotheses.  The instances of this part stand for them
    when a handler is run on a concrete input. *)

(** Modelled from the spec: the utility [clamp] of [commons/utils/clamp] is
    imported by the component but is not among the sources; the spec names it
    among the pure-math utilities without defining it.  In this instance
    [clamp v lo hi] confines [v] to the interval from [lo] to [hi]. *)
Definition clamp_model (v lo hi : Q) : Q := Qmax lo (Qmin v hi).

Fixpoint closest (target best : Q) (points : list Q) : Q :=
  match points with
  | [] => best
  | p :: rest =>
      closest target
        (if Qgt_bool (Qabs (target - best)) (Qabs (target - p))
         then p else best)
        rest
  end.

(** Modelled from the spec: the utility [snapPoint] of
    [commons/utils/snapPoint] is not among the sources; the spec names it
    among the pure-math utilities without defining it.  This instance selects,
    among the given points, the one nearest to where the value is heading
    ([value + 0.2 * velocity]), the first one on ties; [0] stands for the
    result on an empty list. *)
Definition snapPoint_model (v velocity : Q) (points : list Q) : Q :=
  match points with
  | [] => 0
  | p :: rest => closest (v + (2 # 10) * velocity) p rest
  end.

(** Modelled from the spec: the utility [pinchTransform] of
    [commons/utils/pinchTransform] is not among the sources; the spec names it
    among the pure-math utilities without defining it.  This instance gives
    the translation that keeps the origin of a pinch in place while the scale
    goes from [fromScale] to [toScale]. *)
Definition pinchTransform_model (o : PinchOptions) : Vector Q :=
  let fromPinchX := -1 * (x (pt_origin o) * pt_fromScale o - x (pt_origin o)) in
  let fromPinchY := -1 * (y (pt_origin o) * pt_fromScale o - y (pt_origin o)) in
  let toPinchX := -1 * (x (pt_origin o) * pt_toScale o - x (pt_origin o)) in
  let toPinchY := -1 * (y (pt_origin o) * pt_toScale o - y (pt_origin o)) in
  mkVector (x (pt_offset o) + toPinchX - fromPinchX + x (pt_delta o))
           (y (pt_offset o) + toPinchY - fromPinchY + y (pt_delta o)).

(** Modelled from the spec: the utility [getSwipeDirection] of
    [commons/utils/getSwipeDirection] is not among the sources; the spec names
    it without defining it.  This instance reports a swipe when the velocity
    reaches 500 towards a side whose boundary the translation sits on; no
    theorem depends on how the direction is decided. *)
Definition getSwipeDirection_model (e : PanGestureEvent) (o : SwipeOptions)
  : option SwipeDirection :=
  if Qle_bool 500 (velocityX e) && Qeq_bool (x (sw_translate o)) (x (sw_boundaries o))
  then Some RIGHT
  else if Qle_bool (velocityX e) (-500)
          && Qeq_bool (x (sw_translate o)) (- x (sw_boundaries o))
  then Some LEFT
  else if Qle_bool 500 (velocityY e) && Qeq_bool (y (sw_translate o)) (y (sw_boundaries o))
  then Some DOWN
  else if Qle_bool (velocityY e) (-500)
          && Qeq_bool (y (sw_translate o)) (- y (sw_boundaries o))
  then Some UP
  else None.

(** ** Sample inputs *)

(** A horizontal gallery of five items, 400 wide, zoom up to 4. *)
Definition sample_props : ReflectionProps :=
  {| length := 5; maxScale := 4; itemSize := 400; vertical := false;
     onPanStart := true; onPanEnd := true; onUserSwipe := true;
     onVerticalPull := true |}.

(** The same gallery laid out vertically. *)
Definition sample_props_vertical : ReflectionProps :=
  {| length := 5; maxScale := 4; itemSize := 400; vertical := true;
     onPanStart := true; onPanEnd := true; onUserSwipe := true;
     onVerticalPull := true |}.

(** Item 2 of the gallery, at rest, zoomed to 2, panned to (50, -30);
    the root is 400 x 800 and the child 400 x 600. *)
Definition sample_state : State :=
  {| activeIndex := 2; fetchIndex := 2;
     scroll := useSharedValue 800; scrollOffset := 800;
     isScrolling := false;
     rootSize := mkSize 400 800; rootChildSize := mkSize 400 600;
     translate := useVector 50 (-30); scale := useSharedValue 2;
     offset := mkVector 50 (-30);
     detectorTranslate := useVector 50 (-30);
     detectorScale := useSharedValue 2;
     time := 0; position := mkVector 0 0;
     isPullingVertical := false; pullReleased := false |}.

(** Item 2 at rest and not zoomed, while a vertical pull is in progress. *)
Definition sample_pulling : State :=
  {| activeIndex := 2; fetchIndex := 2;
     scroll := useSharedValue 800; scrollOffset := 800;
     isScrolling := true;
     rootSize := mkSize 400 800; rootChildSize := mkSize 400 600;
     translate := useVector 0 40; scale := useSharedValue 1;
     offset := mkVector 0 0;
     detectorTranslate := useVector 0 0;
     detectorScale := useSharedValue 1;
     time := 0; position := mkVector 0 0;
     isPullingVertical := true; pullReleased := false |}.

Definition sample_pan : PanGestureEvent :=
  {| translationX := 300; translationY := 20;
     velocityX := 120; velocityY := -40;
     absoluteX := 210; absoluteY := 400 |}.

(** A pan that starts mostly downwards. *)
Definition sample_pan_down : PanGestureEvent :=
  {| translationX := 4; translationY := 60;
     velocityX := 10; velocityY := 250;
     absoluteX := 200; absoluteY := 300 |}.

Definition sample_tap : TapGestureEvent := {| tapX := 300; tapY := 500 |}.

(** The direction of a swipe against the orientation of the gallery. *)
Definition increments (vert : bool) (d : SwipeDirection) : bool :=
  match d, vert with
  | UP, true | LEFT, false => true
  | _, _ => false
  end.

Definition decrements (vert : bool) (d : SwipeDirection) : bool :=
  match d, vert with
  | DOWN, true | RIGHT, false => true
  | _, _ => false
  end.

(** ** The single tap *)

(** Argument of [crop]. *)
Record CropContext : Type := mkCropContext
  { flipHorizontal : bool; flipVertical : bool; rotationAngle : Q }.

Record CropOptions : Type := mkCropOptions
  { crop_scale : Q;
    crop_context : CropContext;
    crop_canvas : SizeVector;
    crop_cropSize : SizeVector;
    crop_resolution : SizeVector;
    crop_position : Vector Q }.

(** The [crop] field of the result of [crop]; its fields [width] and
    [height] are named [cropWidth] and [cropHeight]. *)
Record CropRect : Type := mkCropRect
  { originX : Q; originY : Q; cropWidth : Q; cropHeight : Q }.

(** The props only the tap reads. *)
Record TapProps : Type := mkTapProps
  { tapOnEdgeToItem : bool; onTap : bool }.

(** The call [runOnJS(onTap)(e, activeIndex.value)]. *)
Inductive TapCall : Type :=
| CallTap (e : TapGestureEvent) (index : Q).

Section Tap.

Variable clamp : Q -> Q -> Q -> Q.
Variable crop : CropOptions -> CropRect.
Variable props : ReflectionProps.
Variable tapProps : TapProps.

(** The index a tap aims at, before the test against [activeIndex]: one
    less on the left edge, one more on the right edge, when taps on the edges
    are enabled in a horizontal gallery.  [44 / scale.value] is the rational
    quotient: a scale of 0 is outside what the rationals model. *)
Definition tapTarget (e : TapGestureEvent) (st : State) : Q :=
  let gallerySize := mkSize (width (rootSize st)) (height (rootSize st)) in
  let result :=
    crop {| crop_scale := value (scale st);
            crop_context :=
              {| flipHorizontal := false; flipVertical := false;
                 rotationAngle := 0 |};
            crop_canvas := gallerySize;
            crop_cropSize := gallerySize;
            crop_resolution := gallerySize;
            crop_position :=
              mkVector (value (x (translate st))) (value (y (translate st))) |} in
  let tapEdge := 44 / value (scale st) in
  let leftEdge := originX result + tapEdge in
  let rightEdge := originX result + cropWidth result - tapEdge in
  let toIndex := activeIndex st in
  let canGoToItem := tapOnEdgeToItem tapProps && negb (vertical props) in
  let toIndex :=
    if Qle_bool (tapX e) leftEdge && canGoToItem then toIndex - 1 else toIndex in
  let toIndex :=
    if Qle_bool rightEdge (tapX e) && canGoToItem then toIndex + 1 else toIndex in
  toIndex.

Definition tap_onEnd (e : TapGestureEvent) (st : State)
  : State * list TapCall :=
  let toIndex := tapTarget e st in
  if Qeq_bool toIndex (activeIndex st) && onTap tapProps
  then (st, [CallTap e (activeIndex st)])
  else
    let toIndex := clamp toIndex 0 (length props - 1) in
    (st ;> write_scroll (Plain (toIndex * itemSize props))
        ;> set_activeIndex toIndex
        ;> set_fetchIndex toIndex
        ;> reset 0 0 minScale false,
     []).

End Tap.

(** ** Runs of the component *)


Section Runs.

Variable clamp : Q -> Q -> Q -> Q.
Variable snapPoint : Q -> Q -> list Q -> Q.
Variable pinchTransform : PinchOptions -> Vector Q.
Variable getSwipeDirection :
  PanGestureEvent -> SwipeOptions -> option SwipeDirection.
Variable crop : CropOptions -> CropRect.
Variable props : ReflectionProps.
Variable tapProps : TapProps.



End Runs.

(** The timing animations of both transforms reach their targets. *)
Definition settle (st : State) : State :=
  let finish sv := fst (end_animation true sv) in
  st ;> set_translate
          (mkVector (finish (x (translate st))) (finish (y (translate st))))
     ;> set_scale (finish (scale st))
     ;> set_detectorTranslate
          (mkVector (finish (x (detectorTranslate st)))
                    (finish (y (detectorTranslate st))))
     ;> set_detectorScale (finish (detectorScale st)).

(** ** State predicates *)


(** An offset of the gallery: from 0 to the offset of the last item. *)
Definition valid_scroll (props : ReflectionProps) (q : Q) : Prop :=
  0 <= q /\ q <= (length props - 1) * itemSize props.





(** The detector transform and the rendered transform hold the same cells. *)
Definition synced (st : State) : Prop :=
  detectorTranslate st = translate st /\ detectorScale st = scale st.

(** Both transforms at rest on the centred, unzoomed item. *)
Definition at_rest (st : State) : Prop :=
  translate st = useVector 0 0
  /\ scale st = useSharedValue minScale
  /\ detectorTranslate st = useVector 0 0
  /\ detectorScale st = useSharedValue minScale.

(** Modelled from the spec: the utility [crop] of [commons/utils/crop] is
    not among the sources; the spec names it among the pure-math utilities
    without defining it.  This instance gives the part of the canvas that is
    visible at the given scale and position. *)
Definition crop_model (o : CropOptions) : CropRect :=
  let w := width (crop_canvas o) / crop_scale o in
  let h := height (crop_canvas o) / crop_scale o in
  {| originX := (width (crop_canvas o) - w) / 2 - x (crop_position o) / crop_scale o;
     originY := (height (crop_canvas o) - h) / 2 - y (crop_position o) / crop_scale o;
     cropWidth := w;
     cropHeight := h |}.

Definition sample_tapProps : TapProps :=
  {| tapOnEdgeToItem := true; onTap := true |}.

Definition sample_tapProps_silent : TapProps :=
  {| tapOnEdgeToItem := false; onTap := false |}.

(** Item 2 zoomed to the maximum, centred. *)
Definition sample_zoomed : State :=
  {| activeIndex := 2; fetchIndex := 2;
     scroll := useSharedValue 800; scrollOffset := 800;
     isScrolling := false;
     rootSize := mkSize 400 800; rootChildSize := mkSize 400 600;
     translate := useVector 0 0; scale := useSharedValue 4;
     offset := mkVector 0 0;
     detectorTranslate := useVector 0 0;
     detectorScale := useSharedValue 4;
     time := 0; position := mkVector 0 0;
     isPullingVertical := false; pullReleased := false |}.

(** A pan that stays inside the bounds of [sample_state]. *)
Definition sample_pan_small : PanGestureEvent :=
  {| translationX := 20; translationY := 10;
     velocityX := 30; velocityY := 5;
     absoluteX := 200; absoluteY := 300 |}.


(** ** Properties of the utilities' instances *)

Lemma clamp_model_range (v lo hi : Q) :
  lo <= hi -> lo <= clamp_model v lo hi /\ clamp_model v lo hi <= hi.
Proof.
  intros Hle. unfold clamp_model. split.
  - apply Q.le_max_l.
  - apply Q.max_lub; [assumption | apply Q.le_min_r].
Qed.

Lemma clamp_model_inside (v lo hi : Q) :
  lo <= v -> v <= hi -> clamp_model v lo hi == v.
Proof.
  intros Hlo Hhi. unfold clamp_model.
  rewrite (Q.min_l v hi) by assumption.
  apply Q.max_r; assumption.
Qed.

Lemma closest_In (target : Q) (points : list Q) :
  forall best, closest target best points = best
               \/ In (closest target best points) points.
Proof.
  induction points as [| p rest IH]; intros best; cbn [closest In].
  - left; reflexivity.
  - destruct (Qgt_bool (Qabs (target - best)) (Qabs (target - p))).
    + destruct (IH p) as [Heq | Hin].
      * right; left; symmetry; exact Heq.
      * right; right; exact Hin.
    + destruct (IH best) as [Heq | Hin].
      * left; exact Heq.
      * right; right; exact Hin.
Qed.

Lemma snapPoint_model_In (v velocity : Q) (points : list Q) :
  points <> [] -> In (snapPoint_model v velocity points) points.
Proof.
  destruct points as [| p rest]; intros Hne; [congruence |].
  unfold snapPoint_model.
  destruct (closest_In (v + (2 # 10) * velocity) rest p) as [Heq | Hin].
  - left; symmetry; exact Heq.
  - right; exact Hin.
Qed.

Lemma clamp_model_cases (v lo hi : Q) :
  lo <= hi ->
  (v < lo /\ clamp_model v lo hi == lo)
  \/ (lo <= v /\ v <= hi /\ clamp_model v lo hi == v)
  \/ (hi < v /\ clamp_model v lo hi == hi).
Proof.
  intros Hle. unfold clamp_model.
  destruct (Q.min_spec v hi) as [[Hlt Hmin] | [Hge Hmin]];
    destruct (Q.max_spec lo (Qmin v hi)) as [[Hlt' Hmax] | [Hge' Hmax]];
    destruct (Qlt_le_dec v lo) as [Hlo | Hlo];
    destruct (Qlt_le_dec hi v) as [Hhi | Hhi];
    try (exfalso; lra);
    try (left; split; lra);
    try (right; right; split; lra);
    right; left; repeat split; lra.
Qed.

(** ** Bounds *)

Lemma half_max_nonneg (a : Q) : 0 <= Qmax 0 a / 2.
Proof.
  unfold Qdiv. apply Qmult_le_0_compat; [apply Q.le_max_l | discriminate].
Qed.

Lemma half_max_fits (a : Q) : a <= 0 -> Qmax 0 a / 2 == 0.
Proof.
  intros Ha. rewrite (Q.max_l 0 a) by exact Ha. reflexivity.
Qed.

Lemma boundsFn_nonneg (st : State) (scaleValue : Q) :
  0 <= x (boundsFn st scaleValue) /\ 0 <= y (boundsFn st scaleValue).
Proof.
  unfold boundsFn; cbn [x y]. split; apply half_max_nonneg.
Qed.

Lemma bounds_interval (b : Q) : 0 <= b -> -1 * b <= b.
Proof. intros Hb. lra. Qed.

(** ** The handlers *)

Section ReflectionFacts.

Variable clamp : Q -> Q -> Q -> Q.
Variable snapPoint : Q -> Q -> list Q -> Q.
Variable pinchTransform : PinchOptions -> Vector Q.
Variable getSwipeDirection :
  PanGestureEvent -> SwipeOptions -> option SwipeDirection.
Variable props : ReflectionProps.

(** What is assumed of [clamp]: on a non-empty interval its result lies in
    the interval. *)
Hypothesis clamp_range :
  forall v lo hi, lo <= hi -> lo <= clamp v lo hi /\ clamp v lo hi <= hi.

(** What is assumed of [snapPoint]: it returns one of the points given. *)
Hypothesis snapPoint_In :
  forall v velocity points,
    points <> [] -> In (snapPoint v velocity points) points.

(** C1: a pan update outside a vertical pull writes to translate.x and
    detectorTranslate.x the value clamp(offset.x + translationX, -boundX,
    boundX), and to translate.y and detectorTranslate.y the value
    clamp(offset.y + translationY, -boundY, boundY), where (boundX, boundY)
    = boundsFn(scale.value); the written values therefore lie in
    [-boundX, boundX] and [-boundY, boundY]. *)
Theorem pan_onUpdate_clamps_translation (e : PanGestureEvent) (st : State) :
  isPullingVertical st = false ->
  let bounds := boundsFn st (value (scale st)) in
  let toX := x (offset st) + translationX e in
  let toY := y (offset st) + translationY e in
  let st' := pan_onUpdate clamp props e st in
  x (translate st') = useSharedValue (clamp toX (-1 * x bounds) (x bounds))
  /\ x (detectorTranslate st')
     = useSharedValue (clamp toX (-1 * x bounds) (x bounds))
  /\ y (translate st') = useSharedValue (clamp toY (-1 * y bounds) (y bounds))
  /\ y (detectorTranslate st')
     = useSharedValue (clamp toY (-1 * y bounds) (y bounds))
  /\ (- x bounds <= value (x (translate st'))
      /\ value (x (translate st')) <= x bounds)
  /\ (- x bounds <= value (x (detectorTranslate st'))
      /\ value (x (detectorTranslate st')) <= x bounds)
  /\ (- y bounds <= value (y (translate st'))
      /\ value (y (translate st')) <= y bounds)
  /\ (- y bounds <= value (y (detectorTranslate st'))
      /\ value (y (detectorTranslate st')) <= y bounds).
Proof.
  intros Hpull bounds toX toY st'.
  destruct (boundsFn_nonneg st (value (scale st))) as [Hbx Hby].
  fold bounds in Hbx, Hby.
  assert (HX := clamp_range toX _ _ (bounds_interval _ Hbx)).
  assert (HY := clamp_range toY _ _ (bounds_interval _ Hby)).
  assert (Ex : x (translate st')
               = useSharedValue (clamp toX (-1 * x bounds) (x bounds))).
  { unfold st', pan_onUpdate. rewrite Hpull. reflexivity. }
  assert (Edx : x (detectorTranslate st')
                = useSharedValue (clamp toX (-1 * x bounds) (x bounds))).
  { unfold st', pan_onUpdate. rewrite Hpull. reflexivity. }
  assert (Ey : y (translate st')
               = useSharedValue (clamp toY (-1 * y bounds) (y bounds))).
  { unfold st', pan_onUpdate. rewrite Hpull. reflexivity. }
  assert (Edy : y (detectorTranslate st')
                = useSharedValue (clamp toY (-1 * y bounds) (y bounds))).
  { unfold st', pan_onUpdate. rewrite Hpull. reflexivity. }
  rewrite Ex, Edx, Ey, Edy. cbn [useSharedValue value].
  repeat split; try reflexivity; lra.
Qed.

(** C8: boundsFn returns non-negative bounds for every scale and every
    root and child size; along an axis where the scaled child fits inside
    the root the bound is 0, and every value clamped to [-bound, bound] on
    that axis is 0. *)
Theorem boundsFn_nonneg_and_pins (st : State) (scaleValue : Q) :
  let bounds := boundsFn st scaleValue in
  0 <= x bounds
  /\ 0 <= y bounds
  /\ (width (rootChildSize st) * scaleValue <= width (rootSize st) ->
      x bounds == 0
      /\ forall v, clamp v (-1 * x bounds) (x bounds) == 0)
  /\ (height (rootChildSize st) * scaleValue <= height (rootSize st) ->
      y bounds == 0
      /\ forall v, clamp v (-1 * y bounds) (y bounds) == 0).
Proof.
  intros bounds.
  destruct (boundsFn_nonneg st scaleValue) as [Hbx Hby].
  fold bounds in Hbx, Hby.
  split; [exact Hbx |]. split; [exact Hby |]. split.
  - intros Hfit.
    assert (Hz : x bounds == 0).
    { unfold bounds, boundsFn; cbn [x]. apply half_max_fits. lra. }
    split; [exact Hz |]. intros v.
    destruct (clamp_range v _ _ (bounds_interval _ Hbx)) as [Hlo Hhi]. lra.
  - intros Hfit.
    assert (Hz : y bounds == 0).
    { unfold bounds, boundsFn; cbn [y]. apply half_max_fits. lra. }
    split; [exact Hz |]. intros v.
    destruct (clamp_range v _ _ (bounds_interval _ Hby)) as [Hlo Hhi]. lra.
Qed.

(** *** Frame lemmas: what [onSwipe] and [snapToScrollPosition] leave alone *)

Lemma onSwipe_same (d : SwipeDirection) (st : State) :
  swipeTarget clamp props d st == activeIndex st ->
  onSwipe clamp props d st = st.
Proof.
  intros Heq. unfold onSwipe. apply Qeq_bool_iff in Heq. rewrite Heq.
  reflexivity.
Qed.

Lemma onSwipe_frame (d : SwipeDirection) (st : State) :
  let st' := onSwipe clamp props d st in
  translate st' = translate st
  /\ detectorTranslate st' = detectorTranslate st
  /\ scale st' = scale st
  /\ detectorScale st' = detectorScale st
  /\ isPullingVertical st' = isPullingVertical st.
Proof.
  unfold onSwipe.
  destruct (Qeq_bool (swipeTarget clamp props d st) (activeIndex st));
    repeat split; reflexivity.
Qed.

Lemma snapToScrollPosition_frame (e : PanGestureEvent) (st : State) :
  let st' := snapToScrollPosition clamp snapPoint props e st in
  translate st' = translate st
  /\ detectorTranslate st' = detectorTranslate st
  /\ scale st' = scale st
  /\ detectorScale st' = detectorScale st.
Proof.
  unfold snapToScrollPosition.
  destruct (negb (Qeq_bool _ _)); repeat split; reflexivity.
Qed.

Lemma reset_cells (toX toY toScale : Q) (animate : bool) (st : State) :
  let to v := if animate then Animated (withTiming v None None)
              else Plain v in
  let st' := reset toX toY toScale animate st in
  x (translate st') = assign (x (translate st)) (to toX)
  /\ y (translate st') = assign (y (translate st)) (to toY)
  /\ scale st' = assign (scale st) (to toScale)
  /\ detectorTranslate st' = translate st'
  /\ detectorScale st' = scale st'.
Proof.
  destruct animate; repeat split; reflexivity.
Qed.

(** C2: reset, a pan update outside a vertical pull and the decay started
    at pan end each assign the detector transform what they assign the
    rendered transform: after reset the detector cells equal the rendered
    cells, which hold the requested targets; after the pan update both
    translations hold the same clamped values and neither scale is
    written; at pan end both translations are given the same decay and
    neither scale is written. *)
Theorem detector_receives_same_targets :
  (forall (toX toY toScale : Q) (animate : bool) (st : State),
      let to v := if animate then Animated (withTiming v None None)
                  else Plain v in
      let st' := reset toX toY toScale animate st in
      x (translate st') = assign (x (translate st)) (to toX)
      /\ y (translate st') = assign (y (translate st)) (to toY)
      /\ scale st' = assign (scale st) (to toScale)
      /\ detectorTranslate st' = translate st'
      /\ detectorScale st' = scale st')
  /\ (forall (e : PanGestureEvent) (st : State),
         isPullingVertical st = false ->
         let st' := pan_onUpdate clamp props e st in
         detectorTranslate st' = translate st'
         /\ animation (x (translate st')) = None
         /\ animation (y (translate st')) = None
         /\ scale st' = scale st
         /\ detectorScale st' = detectorScale st)
  /\ (forall (e : PanGestureEvent) (st : State),
         isPullingVertical st = false ->
         let bounds := boundsFn st (value (scale st)) in
         let configX := withDecay (velocityX e) (- x bounds) (x bounds) in
         let configY := withDecay (velocityY e) (- y bounds) (y bounds) in
         let st' :=
           fst (pan_onEnd clamp snapPoint getSwipeDirection props e st) in
         animation (x (translate st')) = Some configX
         /\ animation (x (detectorTranslate st')) = Some configX
         /\ animation (y (translate st')) = Some configY
         /\ animation (y (detectorTranslate st')) = Some configY
         /\ scale st' = scale st
         /\ detectorScale st' = detectorScale st).
Proof.
  split; [exact reset_cells |]. split.
  - intros e st Hpull st'. unfold st', pan_onUpdate. rewrite Hpull.
    repeat split; reflexivity.
  - intros e st Hpull bounds configX configY st'.
    unfold st', pan_onEnd. fold bounds.
    set (direction := getSwipeDirection e _).
    set (s1 := match direction with Some d => onSwipe clamp props d st
                               | None => st end).
    assert (Hs1 : scale s1 = scale st /\ detectorScale s1 = detectorScale st
                  /\ isPullingVertical s1 = false).
    { unfold s1. destruct direction as [d |].
      - destruct (onSwipe_frame d st) as (_ & _ & Hs & Hds & Hp).
        rewrite Hs, Hds, Hp. auto.
      - auto. }
    destruct Hs1 as (Hs & Hds & Hp). rewrite Hp.
    set (s2 := if (_ : bool)
               then snapToScrollPosition clamp snapPoint props e s1
               else s1).
    assert (Hs2 : scale s2 = scale st /\ detectorScale s2 = detectorScale st).
    { unfold s2. destruct (orb _ _).
      - destruct (snapToScrollPosition_frame e s1) as (_ & _ & Hs' & Hds').
        rewrite Hs', Hds'. auto.
      - auto. }
    destruct Hs2 as (Hs2 & Hds2).
    cbn [fst]. repeat split; try reflexivity; assumption.
Qed.

(** C3: pan.onStart sets isPullingVertical to true exactly when
    |velocityY| > |velocityX|, the scale equals 1 and the gallery is not
    vertical. *)
Theorem pan_onStart_pull_iff (now : Q) (e : PanGestureEvent) (st : State) :
  isPullingVertical (fst (pan_onStart props now e st)) = true
  <-> (Qabs (velocityX e) < Qabs (velocityY e)
       /\ value (scale st) == 1
       /\ vertical props = false).
Proof.
  unfold pan_onStart; cbn. unfold Qgt_bool.
  rewrite !andb_true_iff, !negb_true_iff, Qeq_bool_iff.
  split.
  - intros [[Hv Hs] Hn]. repeat split; try assumption.
    apply Qnot_le_lt. intros Hle. apply Qle_bool_iff in Hle. congruence.
  - intros (Hv & Hs & Hn). repeat split; try assumption.
    destruct (Qle_bool (Qabs (velocityY e)) (Qabs (velocityX e))) eqn:Hle;
      [| reflexivity].
    apply Qle_bool_iff in Hle. exfalso. exact (Qlt_not_le _ _ Hv Hle).
Qed.

(** C4: onSwipe aims one item away: at activeIndex + 1 for UP in a
    vertical and LEFT in a horizontal gallery, at activeIndex - 1 for DOWN
    in a vertical and RIGHT in a horizontal gallery, at activeIndex
    otherwise; the target is that index clamped to [0, length - 1]. When
    the target differs from activeIndex, fetchIndex is set to it and scroll
    is animated to target * itemSize; when that animation ends, activeIndex
    is the target, scrolling is over and both transforms are reset to
    (0, 0, minScale). *)
Theorem onSwipe_moves_to_neighbour (direction : SwipeDirection) (st : State) :
  let wanted := match direction, vertical props with
                | UP, true | LEFT, false => activeIndex st + 1
                | DOWN, true | RIGHT, false => activeIndex st - 1
                | _, _ => activeIndex st
                end in
  let toIndex := clamp wanted 0 (length props - 1) in
  let st' := onSwipe clamp props direction st in
  swipeTarget clamp props direction st = toIndex
  /\ (0 <= length props - 1 ->
      0 <= toIndex /\ toIndex <= length props - 1)
  /\ (~ toIndex == activeIndex st ->
      fetchIndex st' = toIndex
      /\ scroll st'
         = assign (scroll st)
             (Animated (withTiming (toIndex * itemSize props) (Some config)
                          (Some (SwipeCallback toIndex))))
      /\ activeIndex st' = activeIndex st
      /\ forall finished,
          let st'' := scroll_animation_end finished st' in
          activeIndex st'' = toIndex
          /\ fetchIndex st'' = toIndex
          /\ isScrolling st'' = false
          /\ translate st'' = useVector 0 0
          /\ scale st'' = useSharedValue minScale
          /\ detectorTranslate st'' = useVector 0 0
          /\ detectorScale st'' = useSharedValue minScale
          /\ (finished = true ->
              scroll st'' = useSharedValue (toIndex * itemSize props))).
Proof.
  intros wanted toIndex st'.
  assert (Ht : swipeTarget clamp props direction st = toIndex).
  { unfold swipeTarget, toIndex, wanted.
    destruct direction, (vertical props); reflexivity. }
  split; [exact Ht |]. split; [apply clamp_range |].
  intros Hne.
  assert (Hb : Qeq_bool toIndex (activeIndex st) = false).
  { destruct (Qeq_bool toIndex (activeIndex st)) eqn:Hq; [| reflexivity].
    apply Qeq_bool_iff in Hq. contradiction. }
  unfold st', onSwipe. rewrite Ht, Hb.
  repeat split; try reflexivity.
  intros Hfin; subst finished; reflexivity.
Qed.

(** C9: when the clamped target of a swipe equals activeIndex, onSwipe
    returns early and leaves the whole state as it was: fetchIndex, scroll,
    activeIndex, isScrolling, translate and scale among it. *)
Theorem onSwipe_early_return (direction : SwipeDirection) (st : State) :
  swipeTarget clamp props direction st == activeIndex st ->
  let st' := onSwipe clamp props direction st in
  st' = st
  /\ fetchIndex st' = fetchIndex st
  /\ scroll st' = scroll st
  /\ activeIndex st' = activeIndex st
  /\ isScrolling st' = isScrolling st
  /\ translate st' = translate st
  /\ scale st' = scale st.
Proof.
  intros Heq st'.
  assert (E : st' = st) by (apply onSwipe_same; exact Heq).
  rewrite E. repeat split; reflexivity.
Qed.

(** C10: during a vertical pull a pan update writes translate.y only, with
    the raw translationY of the gesture; translate.x, detectorTranslate,
    detectorScale, scale, scroll and every other cell keep their
    contents. *)
Theorem pan_onUpdate_pull_writes_translate_y (e : PanGestureEvent) (st : State) :
  isPullingVertical st = true ->
  let st' := pan_onUpdate clamp props e st in
  st' = set_translate
          (mkVector (x (translate st)) (useSharedValue (translationY e))) st
  /\ y (translate st') = useSharedValue (translationY e)
  /\ x (translate st') = x (translate st)
  /\ detectorTranslate st' = detectorTranslate st
  /\ detectorScale st' = detectorScale st
  /\ scale st' = scale st
  /\ scroll st' = scroll st.
Proof.
  intros Hpull st'. unfold st', pan_onUpdate. rewrite Hpull.
  repeat split; reflexivity.
Qed.

(** C5: snapToScrollPosition takes its scroll target from snapPoint applied
    to the current scroll, the velocity along the gallery axis and the
    three offsets itemSize * clamp(index - 1, 0, length - 1),
    itemSize * index and itemSize * clamp(index + 1, 0, length - 1); the
    target is one of the three; fetchIndex becomes index + 1 or index - 1
    when the target differs from the current item's offset and is left
    alone otherwise. *)
Theorem snapToScrollPosition_targets (e : PanGestureEvent) (st : State) :
  let index := activeIndex st in
  let prev := itemSize props * clamp (index - 1) 0 (length props - 1) in
  let current := itemSize props * index in
  let next := itemSize props * clamp (index + 1) 0 (length props - 1) in
  let velocity := if vertical props then velocityY e else velocityX e in
  let toScroll :=
    snapPoint (value (scroll st)) velocity [prev; current; next] in
  let st' := snapToScrollPosition clamp snapPoint props e st in
  (toScroll = prev \/ toScroll = current \/ toScroll = next)
  /\ scroll st'
     = assign (scroll st)
         (Animated
            (withTiming toScroll (Some config)
               (Some (SnapCallback (negb (Qeq_bool toScroll current))))))
  /\ (toScroll == current -> fetchIndex st' = fetchIndex st)
  /\ (~ toScroll == current ->
      (fetchIndex st' = index + 1 \/ fetchIndex st' = index + -1)
      /\ (toScroll == next -> fetchIndex st' = index + 1)
      /\ (~ toScroll == next -> fetchIndex st' = index + -1)).
Proof.
  intros index prev current next velocity toScroll st'.
  split.
  { assert (Hin : In toScroll [prev; current; next])
      by (apply snapPoint_In; discriminate).
    cbn [In] in Hin.
    destruct Hin as [Hin | [Hin | [Hin | []]]]; rewrite <- Hin; auto. }
  unfold st', snapToScrollPosition.
  fold index. fold prev. fold current. fold next. fold velocity.
  fold toScroll.
  destruct (Qeq_bool toScroll current) eqn:Hcur; cbn [negb].
  - apply Qeq_bool_iff in Hcur.
    split; [reflexivity |]. split; [reflexivity |].
    intros Hne; contradiction.
  - apply Qeq_bool_neq in Hcur.
    split; [reflexivity |]. split; [intros Heq; contradiction |].
    intros _.
    destruct (Qeq_bool toScroll next) eqn:Hnext.
    + apply Qeq_bool_iff in Hnext.
      split; [left; reflexivity |].
      split; [reflexivity | intros Hn; contradiction].
    + apply Qeq_bool_neq in Hnext.
      split; [right; reflexivity |].
      split; [intros Hn; contradiction | reflexivity].
Qed.

(** C6: on a double tap the target scale is minScale when the current
    scale is at least 0.8 * maxScale and maxScale otherwise; reset is
    called, animated, with that scale and with the result of pinchTransform
    clamped componentwise to boundsFn(toScale), so both transforms are
    sent to a translation inside [-boundX, boundX] x [-boundY, boundY]. *)
Theorem doubleTap_resets_within_bounds (e : TapGestureEvent) (st : State) :
  let toScale := doubleTap_toScale props st in
  let r :=
    pinchTransform
      {| pt_toScale := toScale;
         pt_fromScale := value (scale st);
         pt_origin :=
           mkVector (tapX e - width (rootSize st) / 2)
                    (tapY e - height (rootSize st) / 2);
         pt_delta := mkVector 0 0;
         pt_offset :=
           mkVector (value (x (translate st))) (value (y (translate st))) |} in
  let bounds := boundsFn st toScale in
  let toX := clamp (x r) (-1 * x bounds) (x bounds) in
  let toY := clamp (y r) (-1 * y bounds) (y bounds) in
  let st' := doubleTap_onEnd clamp pinchTransform props e st in
  (maxScale props * (8 # 10) <= value (scale st) -> toScale = minScale)
  /\ (value (scale st) < maxScale props * (8 # 10) ->
      toScale = maxScale props)
  /\ st' = reset toX toY toScale true st
  /\ x (translate st')
     = assign (x (translate st)) (Animated (withTiming toX None None))
  /\ y (translate st')
     = assign (y (translate st)) (Animated (withTiming toY None None))
  /\ scale st'
     = assign (scale st) (Animated (withTiming toScale None None))
  /\ detectorTranslate st' = translate st'
  /\ detectorScale st' = scale st'
  /\ (- x bounds <= toX /\ toX <= x bounds)
  /\ (- y bounds <= toY /\ toY <= y bounds).
Proof.
  intros toScale r bounds toX toY st'.
  destruct (boundsFn_nonneg st toScale) as [Hbx Hby].
  fold bounds in Hbx, Hby.
  assert (HX := clamp_range (x r) _ _ (bounds_interval _ Hbx)).
  assert (HY := clamp_range (y r) _ _ (bounds_interval _ Hby)).
  fold toX in HX. fold toY in HY.
  split.
  { intros Hge. unfold toScale, doubleTap_toScale.
    apply Qle_bool_iff in Hge. rewrite Hge. reflexivity. }
  split.
  { intros Hlt. unfold toScale, doubleTap_toScale.
    destruct (Qle_bool (maxScale props * (8 # 10)) (value (scale st)))
      eqn:Hle; [| reflexivity].
    apply Qle_bool_iff in Hle. exfalso. exact (Qlt_not_le _ _ Hlt Hle). }
  split; [reflexivity |].
  repeat split; try reflexivity; lra.
Qed.

(** C7: the reaction calls onVerticalPull only when the gallery is not
    vertical, the scale equals 1 and a vertical pull is in progress, and
    then with translate.y and pullReleased; under any other combination it
    calls nothing, and no pan handler calls it. *)
Theorem onVerticalPull_only_while_pulling (st : State) :
  (forall t r,
      In (CallVerticalPull t r) (verticalPull_reaction props st) ->
      vertical props = false
      /\ value (scale st) == 1
      /\ isPullingVertical st = true
      /\ t = value (y (translate st))
      /\ r = pullReleased st)
  /\ (vertical props = true \/ ~ value (scale st) == 1
      \/ isPullingVertical st = false ->
      verticalPull_reaction props st = [])
  /\ (forall now e t r,
         ~ In (CallVerticalPull t r) (snd (pan_onStart props now e st)))
  /\ (forall e t r,
         ~ In (CallVerticalPull t r)
             (snd (pan_onEnd clamp snapPoint getSwipeDirection props e st))).
Proof.
  split; [| split; [| split]].
  - intros t r. unfold verticalPull_reaction.
    destruct (vertical props), (Qeq_bool (value (scale st)) 1) eqn:Hs,
      (isPullingVertical st), (onVerticalPull props);
      cbn; try tauto.
    intros [Heq | []]. inversion Heq; subst.
    apply Qeq_bool_iff in Hs. auto.
  - unfold verticalPull_reaction.
    intros [Hv | [Hs | Hp]].
    + rewrite Hv. reflexivity.
    + destruct (Qeq_bool (value (scale st)) 1) eqn:Hq.
      * apply Qeq_bool_iff in Hq. contradiction.
      * rewrite andb_false_r. reflexivity.
    + rewrite Hp, andb_false_r. reflexivity.
  - intros now e t r. unfold pan_onStart. cbn [snd].
    destruct (onPanStart props); cbn; intuition discriminate.
  - intros e t r. unfold pan_onEnd.
    set (direction := getSwipeDirection e _).
    set (s1 := match direction with Some d => onSwipe clamp props d st
                               | None => st end).
    destruct (isPullingVertical s1); cbn [snd].
    + destruct direction; [destruct (onUserSwipe props) |];
        cbn; intuition discriminate.
    + intros Hin. apply in_app_or in Hin. destruct Hin as [Hin | Hin].
      * destruct direction; [destruct (onUserSwipe props) |];
          cbn in Hin; intuition discriminate.
      * destruct (onPanEnd props); cbn in Hin; intuition discriminate.
Qed.

End ReflectionFacts.

(** ** Swipes under the reference [clamp] *)

Lemma swipeTarget_model (props : ReflectionProps) (d : SwipeDirection)
      (st : State) :
  swipeTarget clamp_model props d st
  = clamp_model
      (if increments (vertical props) d then activeIndex st + 1
       else if decrements (vertical props) d then activeIndex st - 1
       else activeIndex st)
      0 (length props - 1).
Proof.
  unfold swipeTarget. destruct d, (vertical props); reflexivity.
Qed.

(** Inside the gallery a swipe along its axis aims exactly one item away. *)
Lemma swipeTarget_model_inside (props : ReflectionProps) (d : SwipeDirection)
      (st : State) :
  (increments (vertical props) d = true ->
   0 <= activeIndex st + 1 -> activeIndex st + 1 <= length props - 1 ->
   swipeTarget clamp_model props d st == activeIndex st + 1)
  /\ (decrements (vertical props) d = true ->
      0 <= activeIndex st - 1 -> activeIndex st - 1 <= length props - 1 ->
      swipeTarget clamp_model props d st == activeIndex st - 1).
Proof.
  rewrite swipeTarget_model. split; intros Hd Hlo Hhi.
  - rewrite Hd. apply clamp_model_inside; assumption.
  - destruct (increments (vertical props) d) eqn:Hi.
    + destruct d, (vertical props); discriminate.
    + rewrite Hd. apply clamp_model_inside; assumption.
Qed.

(** Swiping outward at either end of the gallery, or across its axis, aims
    at the active item itself, and [onSwipe] returns the state it was given. *)
Lemma onSwipe_model_stays (props : ReflectionProps) (d : SwipeDirection)
      (st : State) :
  0 <= activeIndex st -> activeIndex st <= length props - 1 ->
  (increments (vertical props) d = false
   /\ decrements (vertical props) d = false)
  \/ (increments (vertical props) d = true
      /\ activeIndex st == length props - 1)
  \/ (decrements (vertical props) d = true /\ activeIndex st == 0) ->
  onSwipe clamp_model props d st = st.
Proof.
  intros Hlo Hhi Hcase.
  assert (Hlen : 0 <= length props - 1) by lra.
  unfold onSwipe.
  assert (Heq : swipeTarget clamp_model props d st == activeIndex st).
  { rewrite swipeTarget_model.
    destruct Hcase as [[Hi Hd] | [[Hi He] | [Hd He]]].
    - rewrite Hi, Hd. apply clamp_model_inside; assumption.
    - rewrite Hi.
      destruct (clamp_model_cases (activeIndex st + 1) 0 (length props - 1) Hlen)
        as [[H1 H2] | [(H1 & H2 & H3) | [H1 H2]]]; lra.
    - destruct (increments (vertical props) d) eqn:Hi.
      + destruct d, (vertical props); discriminate.
      + rewrite Hd.
        destruct (clamp_model_cases (activeIndex st - 1) 0 (length props - 1) Hlen)
          as [[H1 H2] | [(H1 & H2 & H3) | [H1 H2]]]; lra. }
  apply Qeq_bool_iff in Heq. rewrite Heq. reflexivity.
Qed.

(** ** The theorems at the sample inputs *)

Lemma pan_onUpdate_clamps_translation_witness :
  isPullingVertical sample_state = false
  /\ x (translate (pan_onUpdate clamp_model sample_props sample_pan sample_state))
     = useSharedValue
         (clamp_model (x (offset sample_state) + translationX sample_pan)
            (-1 * x (boundsFn sample_state (value (scale sample_state))))
            (x (boundsFn sample_state (value (scale sample_state))))).
Proof.
  split; [reflexivity |].
  exact (proj1 (pan_onUpdate_clamps_translation clamp_model sample_props
                  clamp_model_range sample_pan sample_state eq_refl)).
Defined.

Lemma boundsFn_nonneg_and_pins_witness :
  width (rootChildSize sample_state) * 1 <= width (rootSize sample_state)
  /\ x (boundsFn sample_state 1) == 0
  /\ forall v, clamp_model v (-1 * x (boundsFn sample_state 1))
                 (x (boundsFn sample_state 1)) == 0.
Proof.
  assert (Hfit : width (rootChildSize sample_state) * 1
                 <= width (rootSize sample_state))
    by (apply Qle_bool_iff; reflexivity).
  split; [exact Hfit |].
  destruct (boundsFn_nonneg_and_pins clamp_model clamp_model_range
              sample_state 1) as (_ & _ & Hx & _).
  exact (Hx Hfit).
Defined.

Lemma detector_receives_same_targets_witness :
  isPullingVertical sample_state = false
  /\ animation
       (x (detectorTranslate
             (fst (pan_onEnd clamp_model snapPoint_model getSwipeDirection_model
                     sample_props sample_pan sample_state))))
     = animation
         (x (translate
               (fst (pan_onEnd clamp_model snapPoint_model
                       getSwipeDirection_model sample_props sample_pan
                       sample_state)))).
Proof.
  split; [reflexivity |].
  destruct (detector_receives_same_targets clamp_model snapPoint_model
              getSwipeDirection_model sample_props) as (_ & _ & Hend).
  destruct (Hend sample_pan sample_state eq_refl) as (Hx & Hdx & _).
  rewrite Hx, Hdx. reflexivity.
Defined.

Lemma pan_onStart_pull_iff_witness :
  isPullingVertical (fst (pan_onStart sample_props 0 sample_pan_down sample_pulling))
  = true.
Proof.
  apply (pan_onStart_pull_iff sample_props 0 sample_pan_down sample_pulling).
  repeat split; reflexivity.
Defined.

Lemma onSwipe_moves_to_neighbour_witness :
  ~ clamp_model (activeIndex sample_state + 1) 0 (length sample_props - 1)
    == activeIndex sample_state
  /\ fetchIndex (onSwipe clamp_model sample_props LEFT sample_state)
     = clamp_model (activeIndex sample_state + 1) 0 (length sample_props - 1).
Proof.
  assert (Hne : ~ clamp_model (activeIndex sample_state + 1) 0
                    (length sample_props - 1)
                  == activeIndex sample_state)
    by (intros H; vm_compute in H; discriminate H).
  split; [exact Hne |].
  destruct (onSwipe_moves_to_neighbour clamp_model sample_props
              clamp_model_range LEFT sample_state) as (_ & _ & Hmove).
  exact (proj1 (Hmove Hne)).
Defined.

Lemma snapToScrollPosition_targets_witness :
  let index := activeIndex sample_state in
  let prev :=
    itemSize sample_props * clamp_model (index - 1) 0 (length sample_props - 1) in
  let current := itemSize sample_props * index in
  let next :=
    itemSize sample_props * clamp_model (index + 1) 0 (length sample_props - 1) in
  let toScroll :=
    snapPoint_model (value (scroll sample_state)) (velocityX sample_pan)
      [prev; current; next] in
  (toScroll = prev \/ toScroll = current \/ toScroll = next)
  /\ fetchIndex (snapToScrollPosition clamp_model snapPoint_model sample_props
                   sample_pan sample_state)
     = fetchIndex sample_state.
Proof.
  intros index prev current next toScroll.
  destruct (snapToScrollPosition_targets clamp_model snapPoint_model
              sample_props snapPoint_model_In sample_pan sample_state)
    as (Hin & _ & Hsame & _).
  split; [exact Hin |].
  apply Hsame. vm_compute. reflexivity.
Defined.

Lemma doubleTap_resets_within_bounds_witness :
  doubleTap_onEnd clamp_model pinchTransform_model sample_props sample_tap
    sample_state
  = reset
      (clamp_model
         (x (pinchTransform_model
               {| pt_toScale := doubleTap_toScale sample_props sample_state;
                  pt_fromScale := value (scale sample_state);
                  pt_origin :=
                    mkVector
                      (tapX sample_tap - width (rootSize sample_state) / 2)
                      (tapY sample_tap - height (rootSize sample_state) / 2);
                  pt_delta := mkVector 0 0;
                  pt_offset :=
                    mkVector (value (x (translate sample_state)))
                             (value (y (translate sample_state))) |}))
         (-1 * x (boundsFn sample_state
                    (doubleTap_toScale sample_props sample_state)))
         (x (boundsFn sample_state
               (doubleTap_toScale sample_props sample_state))))
      (clamp_model
         (y (pinchTransform_model
               {| pt_toScale := doubleTap_toScale sample_props sample_state;
                  pt_fromScale := value (scale sample_state);
                  pt_origin :=
                    mkVector
                      (tapX sample_tap - width (rootSize sample_state) / 2)
                      (tapY sample_tap - height (rootSize sample_state) / 2);
                  pt_delta := mkVector 0 0;
                  pt_offset :=
                    mkVector (value (x (translate sample_state)))
                             (value (y (translate sample_state))) |}))
         (-1 * y (boundsFn sample_state
                    (doubleTap_toScale sample_props sample_state)))
         (y (boundsFn sample_state
               (doubleTap_toScale sample_props sample_state))))
      (doubleTap_toScale sample_props sample_state) true sample_state.
Proof.
  destruct (doubleTap_resets_within_bounds clamp_model pinchTransform_model
              sample_props clamp_model_range sample_tap sample_state)
    as (_ & _ & Hreset & _).
  exact Hreset.
Defined.

Lemma onVerticalPull_only_while_pulling_witness :
  In (CallVerticalPull 40 false)
     (verticalPull_reaction sample_props sample_pulling)
  /\ vertical sample_props = false
  /\ value (scale sample_pulling) == 1
  /\ isPullingVertical sample_pulling = true.
Proof.
  assert (Hin : In (CallVerticalPull 40 false)
                   (verticalPull_reaction sample_props sample_pulling))
    by (left; reflexivity).
  split; [exact Hin |].
  destruct (onVerticalPull_only_while_pulling clamp_model snapPoint_model
              getSwipeDirection_model sample_props sample_pulling)
    as (Hcall & _).
  destruct (Hcall 40 false Hin) as (Hv & Hs & Hp & _).
  auto.
Defined.

Lemma onSwipe_early_return_witness :
  swipeTarget clamp_model sample_props UP sample_state
  == activeIndex sample_state
  /\ onSwipe clamp_model sample_props UP sample_state = sample_state.
Proof.
  assert (Heq : swipeTarget clamp_model sample_props UP sample_state
                == activeIndex sample_state)
    by (vm_compute; reflexivity).
  split; [exact Heq |].
  exact (proj1 (onSwipe_early_return clamp_model sample_props UP sample_state
                  Heq)).
Defined.

Lemma pan_onUpdate_pull_writes_translate_y_witness :
  isPullingVertical sample_pulling = true
  /\ y (translate (pan_onUpdate clamp_model sample_props sample_pan_down
                     sample_pulling))
     = useSharedValue (translationY sample_pan_down)
  /\ detectorTranslate (pan_onUpdate clamp_model sample_props sample_pan_down
                          sample_pulling)
     = detectorTranslate sample_pulling.
Proof.
  split; [reflexivity |].
  destruct (pan_onUpdate_pull_writes_translate_y clamp_model sample_props
              sample_pan_down sample_pulling eq_refl)
    as (_ & Hy & _ & Hd & _).
  split; assumption.
Defined.

(** ** Runs on the sample inputs *)

Example sample_bounds :
  x (boundsFn sample_state 2) == 200 /\ y (boundsFn sample_state 2) == 200.
Proof. split; vm_compute; reflexivity. Qed.

Example sample_pan_update :
  let st' := pan_onUpdate clamp_model sample_props sample_pan sample_state in
  value (x (translate st')) == 200
  /\ value (y (translate st')) == -10
  /\ value (scroll st') == 650.
Proof. repeat split; vm_compute; reflexivity. Qed.

Example sample_double_tap_scale :
  doubleTap_toScale sample_props sample_state = 4.
Proof. reflexivity. Qed.

Example sample_swipe_left :
  let st' := onSwipe clamp_model sample_props LEFT sample_state in
  fetchIndex st' == 3
  /\ activeIndex (scroll_animation_end true st') == 3
  /\ value (scroll (scroll_animation_end true st')) == 1200.
Proof. repeat split; vm_compute; reflexivity. Qed.

(** ** Whole numbers and overshoot *)



Lemma sign_pos (q : Q) : 0 < q -> sign q = 1.
Proof.
  intros H. unfold sign. destruct (Qcompare_spec q 0); [lra | lra | reflexivity].
Qed.

Lemma sign_neg (q : Q) : q < 0 -> sign q = -1.
Proof.
  intros H. unfold sign. destruct (Qcompare_spec q 0); [lra | reflexivity | lra].
Qed.

Lemma sign_zero (q : Q) : q == 0 -> sign q = 0.
Proof.
  intros H. unfold sign. destruct (Qcompare_spec q 0); [reflexivity | lra | lra].
Qed.

(** The overshoot of a pan past the bound, with the sign the scroll takes. *)
Lemma overshoot_inside (to b : Q) :
  Qabs to <= b -> -1 * sign to * Qmax 0 (Qabs to - b) == 0.
Proof.
  intros Hin. rewrite (Q.max_l 0 (Qabs to - b)) by lra. ring.
Qed.

Lemma overshoot_right (to b : Q) :
  0 <= b -> b < to -> -1 * sign to * Qmax 0 (Qabs to - b) == b - to.
Proof.
  intros Hb Hto. rewrite (sign_pos to) by lra.
  rewrite (Qabs_pos to) by lra.
  rewrite (Q.max_r 0 (to - b)) by lra. ring.
Qed.

Lemma overshoot_left (to b : Q) :
  0 <= b -> to < - b -> -1 * sign to * Qmax 0 (Qabs to - b) == - b - to.
Proof.
  intros Hb Hto. rewrite (sign_neg to) by lra.
  rewrite (Qabs_neg to) by lra.
  rewrite (Q.max_r 0 (- to - b)) by lra. ring.
Qed.

(** ** Runs, compositions and edge cases *)

Section ReflectionRuns.

Variable clamp : Q -> Q -> Q -> Q.
Variable snapPoint : Q -> Q -> list Q -> Q.
Variable pinchTransform : PinchOptions -> Vector Q.
Variable getSwipeDirection :
  PanGestureEvent -> SwipeOptions -> option SwipeDirection.
Variable crop : CropOptions -> CropRect.
Variable props : ReflectionProps.
Variable tapProps : TapProps.

(** What is assumed of [clamp]: on a non-empty interval it returns the
    nearest point of the interval. *)
Hypothesis clamp_range :
  forall v lo hi, lo <= hi -> lo <= clamp v lo hi /\ clamp v lo hi <= hi.
Hypothesis clamp_cases :
  forall v lo hi, lo <= hi ->
    (v < lo /\ clamp v lo hi == lo)
    \/ (lo <= v /\ v <= hi /\ clamp v lo hi == v)
    \/ (hi < v /\ clamp v lo hi == hi).

(** What is assumed of [snapPoint]: it returns one of the points given. *)
Hypothesis snapPoint_In :
  forall v velocity points,
    points <> [] -> In (snapPoint v velocity points) points.

(** What is assumed of the gallery: a whole, positive number of items of
    non-negative size. *)
Hypothesis length_whole : exists n : Z, length props == inject_Z n.
Hypothesis length_pos : 1 <= length props.
Hypothesis itemSize_nonneg : 0 <= itemSize props.





Lemma clamp_cases_inside (v lo hi : Q) :
  lo <= v -> v <= hi -> clamp v lo hi == v.
Proof.
  intros Hlo Hhi. assert (Hle : lo <= hi) by lra.
  destruct (clamp_cases v lo hi Hle)
    as [[H1 H2] | [(H1 & H2 & H3) | [H1 H2]]]; lra.
Qed.






















Lemma pan_split (to b : Q) :
  0 <= b ->
  clamp to (-1 * b) b - to == -1 * sign to * Qmax 0 (Qabs to - b).
Proof.
  intros Hb. assert (Hle : -1 * b <= b) by lra.
  destruct (clamp_cases to (-1 * b) b Hle)
    as [[H1 H2] | [(H1 & H2 & H3) | [H1 H2]]].
  - rewrite overshoot_left by lra. lra.
  - rewrite overshoot_inside by (apply Qabs_Qle_condition; split; lra). lra.
  - rewrite overshoot_right by lra. lra.
Qed.

Lemma scroll_split (so to b hi : Q) :
  0 <= b ->
  let c := clamp to (-1 * b) b in
  let s := clamp (so + -1 * sign to * Qmax 0 (Qabs to - b)) 0 hi in
  (Qabs to <= b -> c == to /\ (0 <= so -> so <= hi -> s == so))
  /\ (0 <= so + (c - to) -> so + (c - to) <= hi -> c - (s - so) == to).
Proof.
  intros Hb c s. assert (Hsplit := pan_split to b Hb). fold c in Hsplit.
  split.
  - intros Hin.
    assert (Hc : c == to).
    { apply clamp_cases_inside; apply Qabs_Qle_condition in Hin; lra. }
    split; [exact Hc |]. intros Hlo Hhi.
    unfold s. rewrite clamp_cases_inside; lra.
  - intros Hlo Hhi. unfold s. rewrite clamp_cases_inside; lra.
Qed.

(** X3: outside a vertical pull, a pan update splits the pan between the
    image and the gallery along the gallery axis.  While the wanted
    translation stays inside the bounds the image takes all of it and a
    scroll that started inside the gallery stays where it started; whenever the
    overshoot fits the scroll range, the written translation minus the scroll
    displacement is the wanted translation, so nothing of the pan is lost. *)
Theorem pan_onUpdate_splits_pan (e : PanGestureEvent) (st : State) :
  isPullingVertical st = false ->
  let bounds := boundsFn st (value (scale st)) in
  let toX := x (offset st) + translationX e in
  let toY := y (offset st) + translationY e in
  let st' := pan_onUpdate clamp props e st in
  (vertical props = false ->
   (Qabs toX <= x bounds ->
    value (x (translate st')) == toX
    /\ (valid_scroll props (scrollOffset st) ->
        value (scroll st') == scrollOffset st))
   /\ (valid_scroll props
         (scrollOffset st + (value (x (translate st')) - toX)) ->
       value (x (translate st')) - (value (scroll st') - scrollOffset st)
       == toX))
  /\ (vertical props = true ->
      (Qabs toY <= y bounds ->
       value (y (translate st')) == toY
       /\ (valid_scroll props (scrollOffset st) ->
           value (scroll st') == scrollOffset st))
      /\ (valid_scroll props
            (scrollOffset st + (value (y (translate st')) - toY)) ->
          value (y (translate st')) - (value (scroll st') - scrollOffset st)
          == toY)).
Proof.
  intros Hpull bounds toX toY st'.
  destruct (boundsFn_nonneg st (value (scale st))) as [Hbx Hby].
  fold bounds in Hbx, Hby.
  assert (Ex : value (x (translate st'))
               = clamp toX (-1 * x bounds) (x bounds))
    by (unfold st', pan_onUpdate; rewrite Hpull; reflexivity).
  assert (Ey : value (y (translate st'))
               = clamp toY (-1 * y bounds) (y bounds))
    by (unfold st', pan_onUpdate; rewrite Hpull; reflexivity).
  split; intros Hv.
  - assert (Es : value (scroll st')
                 = clamp (scrollOffset st
                          + -1 * sign toX * Qmax 0 (Qabs toX - x bounds))
                     0 ((length props - 1) * itemSize props))
      by (unfold st', pan_onUpdate; rewrite Hpull, Hv; reflexivity).
    rewrite Ex, Es. unfold valid_scroll.
    destruct (scroll_split (scrollOffset st) toX (x bounds)
                ((length props - 1) * itemSize props) Hbx) as [Hin Hout].
    split.
    + intros Hb. destruct (Hin Hb) as [Hc Hs].
      split; [exact Hc |]. intros [Hlo Hhi]. exact (Hs Hlo Hhi).
    + intros [Hlo Hhi]. exact (Hout Hlo Hhi).
  - assert (Es : value (scroll st')
                 = clamp (scrollOffset st
                          + -1 * sign toY * Qmax 0 (Qabs toY - y bounds))
                     0 ((length props - 1) * itemSize props))
      by (unfold st', pan_onUpdate; rewrite Hpull, Hv; reflexivity).
    rewrite Ey, Es. unfold valid_scroll.
    destruct (scroll_split (scrollOffset st) toY (y bounds)
                ((length props - 1) * itemSize props) Hby) as [Hin Hout].
    split.
    + intros Hb. destruct (Hin Hb) as [Hc Hs].
      split; [exact Hc |]. intros [Hlo Hhi]. exact (Hs Hlo Hhi).
    + intros [Hlo Hhi]. exact (Hout Hlo Hhi).
Qed.

(** X4: a pan update that follows pan.onStart (and is not a vertical pull)
    writes clamp(translate at the start + translation of the gesture): the
    pan is relative to where the image was when the gesture began, whatever
    animation was running.  A zero translation leaves an image that is inside
    its bounds where it was. *)
Theorem pan_is_relative_to_its_start
        (now : Q) (e0 e : PanGestureEvent) (st : State) :
  let st0 := fst (pan_onStart props now e0 st) in
  let st' := pan_onUpdate clamp props e st0 in
  let bounds := boundsFn st (value (scale st)) in
  isPullingVertical st0 = false ->
  value (x (translate st'))
  = clamp (value (x (translate st)) + translationX e)
      (-1 * x bounds) (x bounds)
  /\ value (y (translate st'))
     = clamp (value (y (translate st)) + translationY e)
         (-1 * y bounds) (y bounds)
  /\ (translationX e == 0 -> Qabs (value (x (translate st))) <= x bounds ->
      value (x (translate st')) == value (x (translate st)))
  /\ (translationY e == 0 -> Qabs (value (y (translate st))) <= y bounds ->
      value (y (translate st')) == value (y (translate st))).
Proof.
  intros st0 st' bounds Hpull.
  assert (Ex : value (x (translate st'))
               = clamp (value (x (translate st)) + translationX e)
                   (-1 * x bounds) (x bounds))
    by (unfold st', pan_onUpdate; rewrite Hpull; reflexivity).
  assert (Ey : value (y (translate st'))
               = clamp (value (y (translate st)) + translationY e)
                   (-1 * y bounds) (y bounds))
    by (unfold st', pan_onUpdate; rewrite Hpull; reflexivity).
  split; [exact Ex |]. split; [exact Ey |]. split.
  - intros Hz Hin. rewrite Ex. apply Qabs_Qle_condition in Hin.
    rewrite clamp_cases_inside; lra.
  - intros Hz Hin. rewrite Ey. apply Qabs_Qle_condition in Hin.
    rewrite clamp_cases_inside; lra.
Qed.

Lemma pan_onUpdate_keeps (e : PanGestureEvent) (st : State) :
  isPullingVertical st = false ->
  let st' := pan_onUpdate clamp props e st in
  isPullingVertical st' = false
  /\ scale st' = scale st
  /\ detectorScale st' = detectorScale st
  /\ rootSize st' = rootSize st
  /\ rootChildSize st' = rootChildSize st
  /\ detectorTranslate st' = translate st'.
Proof.
  intros Hpull st'. unfold st', pan_onUpdate. rewrite Hpull.
  split; [exact Hpull |]. repeat split; reflexivity.
Qed.

Lemma pan_onEnd_cells (e : PanGestureEvent) (st : State) :
  isPullingVertical st = false ->
  let st' := fst (pan_onEnd clamp snapPoint getSwipeDirection props e st) in
  let bounds := boundsFn st (value (scale st)) in
  let configX := withDecay (velocityX e) (- x bounds) (x bounds) in
  let configY := withDecay (velocityY e) (- y bounds) (y bounds) in
  translate st'
  = mkVector (assign (x (translate st)) (Animated configX))
             (assign (y (translate st)) (Animated configY))
  /\ detectorTranslate st'
     = mkVector (assign (x (detectorTranslate st)) (Animated configX))
                (assign (y (detectorTranslate st)) (Animated configY))
  /\ scale st' = scale st
  /\ detectorScale st' = detectorScale st.
Proof.
  intros Hpull st' bounds configX configY. unfold st', pan_onEnd.
  fold bounds.
  set (direction := getSwipeDirection e _).
  set (s1 := match direction with Some d => onSwipe clamp props d st
                             | None => st end).
  assert (Hs1 : translate s1 = translate st
                /\ detectorTranslate s1 = detectorTranslate st
                /\ scale s1 = scale st
                /\ detectorScale s1 = detectorScale st
                /\ isPullingVertical s1 = false).
  { unfold s1. destruct direction as [d |]; [| auto 6].
    destruct (onSwipe_frame clamp props d st) as (Ht & Hd & Hs & Hds & Hp).
    rewrite Ht, Hd, Hs, Hds, Hp. auto 6. }
  destruct Hs1 as (Ht & Hd & Hs & Hds & Hp). rewrite Hp.
  set (s2 := if (_ : bool)
             then snapToScrollPosition clamp snapPoint props e s1 else s1).
  assert (Hs2 : translate s2 = translate st
                /\ detectorTranslate s2 = detectorTranslate st
                /\ scale s2 = scale st
                /\ detectorScale s2 = detectorScale st).
  { unfold s2. destruct (orb _ _); [| auto].
    destruct (snapToScrollPosition_frame clamp snapPoint props e s1)
      as (Ht' & Hd' & Hs' & Hds').
    rewrite Ht', Hd', Hs', Hds'. auto. }
  destruct Hs2 as (Ht2 & Hd2 & Hsc2 & Hds2).
  cbn [fst].
  unfold write_detectorTranslate_y, write_detectorTranslate_x,
    write_translate_y, write_translate_x.
  cbn. rewrite Ht2, Hd2. auto.
Qed.

(** X5: when a pan update is followed by pan.onEnd outside a vertical pull,
    the decay installed on each translation has the clamp [-bound, bound] of
    the bounds at the current scale and starts from a value inside that
    clamp; the detector translation holds the same cells. *)
Theorem decay_starts_inside_its_clamp (e e' : PanGestureEvent) (st : State) :
  isPullingVertical st = false ->
  let st1 := pan_onUpdate clamp props e st in
  let st2 := fst (pan_onEnd clamp snapPoint getSwipeDirection props e' st1) in
  let bounds := boundsFn st (value (scale st)) in
  animation (x (translate st2))
  = Some (withDecay (velocityX e') (- x bounds) (x bounds))
  /\ animation (y (translate st2))
     = Some (withDecay (velocityY e') (- y bounds) (y bounds))
  /\ (- x bounds <= value (x (translate st2))
      /\ value (x (translate st2)) <= x bounds)
  /\ (- y bounds <= value (y (translate st2))
      /\ value (y (translate st2)) <= y bounds)
  /\ detectorTranslate st2 = translate st2.
Proof.
  intros Hpull st1 st2 bounds.
  destruct (pan_onUpdate_keeps e st Hpull) as (Hp1 & Hs1 & _ & Hr1 & Hc1 & Hd1).
  fold st1 in Hp1, Hs1, Hr1, Hc1, Hd1.
  assert (Hb : boundsFn st1 (value (scale st1)) = bounds)
    by (unfold boundsFn, bounds; rewrite Hs1, Hr1, Hc1; reflexivity).
  destruct (pan_onEnd_cells e' st1 Hp1) as (Ht & Hdt & _).
  fold st2 in Ht, Hdt. rewrite Hb in Ht, Hdt.
  destruct (boundsFn_nonneg st (value (scale st))) as [Hbx Hby].
  fold bounds in Hbx, Hby.
  assert (Ex : value (x (translate st1))
               = clamp (x (offset st) + translationX e)
                   (-1 * x bounds) (x bounds))
    by (unfold st1, pan_onUpdate; rewrite Hpull; reflexivity).
  assert (Ey : value (y (translate st1))
               = clamp (y (offset st) + translationY e)
                   (-1 * y bounds) (y bounds))
    by (unfold st1, pan_onUpdate; rewrite Hpull; reflexivity).
  assert (HX := clamp_range (x (offset st) + translationX e)
                  (-1 * x bounds) (x bounds)).
  assert (HY := clamp_range (y (offset st) + translationY e)
                  (-1 * y bounds) (y bounds)).
  rewrite Hdt, Ht, Hd1. cbn [x y assign value animation].
  rewrite Ex, Ey.
  repeat split; try reflexivity; lra.
Qed.

(** X6: outside a vertical pull, a pan that ends without a swipe, or with a
    swipe across the gallery axis, always leaves scroll animated towards one
    of the three snap offsets, from the value it had. *)
Theorem pan_end_without_swipe_snaps (e : PanGestureEvent) (st : State) :
  isPullingVertical st = false ->
  let direction :=
    getSwipeDirection e
      {| sw_boundaries := boundsFn st (value (scale st));
         sw_time := time st;
         sw_position := mkVector (x (position st)) (y (position st));
         sw_translate :=
           mkVector (value (x (translate st))) (value (y (translate st))) |} in
  match direction with
  | None => True
  | Some d =>
      increments (vertical props) d || decrements (vertical props) d = false
  end ->
  let st' := fst (pan_onEnd clamp snapPoint getSwipeDirection props e st) in
  let index := activeIndex st in
  let prev := itemSize props * clamp (index - 1) 0 (length props - 1) in
  let current := itemSize props * index in
  let next := itemSize props * clamp (index + 1) 0 (length props - 1) in
  exists toScroll changed,
    (toScroll = prev \/ toScroll = current \/ toScroll = next)
    /\ scroll st'
       = {| value := value (scroll st);
            animation :=
              Some (withTiming toScroll (Some config)
                      (Some (SnapCallback changed))) |}.
Proof.
  intros Hpull direction Hdir st' index prev current next.
  unfold st', pan_onEnd. rewrite Hpull.
  fold direction.
  set (s1 := match direction with Some d => onSwipe clamp props d st
                             | None => st end).
  assert (Hs1 : activeIndex s1 = activeIndex st
                /\ value (scroll s1) = value (scroll st)
                /\ isPullingVertical s1 = false).
  { unfold s1. destruct direction as [d |]; [| auto].
    unfold onSwipe. destruct (Qeq_bool _ _); auto. }
  destruct Hs1 as (Ha & Hv & Hp). rewrite Hp.
  assert (Hsnap :
            (vertical props
             && (match direction with None => true | Some _ => false end
                 || match direction with
                    | Some LEFT | Some RIGHT => true | _ => false end)
             || negb (vertical props)
                && (match direction with None => true | Some _ => false end
                    || match direction with
                       | Some UP | Some DOWN => true | _ => false end))
            = true).
  { destruct direction as [[] |], (vertical props);
      try reflexivity; discriminate Hdir. }
  rewrite Hsnap. cbn [fst].
  set (toScroll :=
         snapPoint (value (scroll s1))
           (if vertical props then velocityY e else velocityX e)
           [itemSize props * clamp (activeIndex s1 - 1) 0 (length props - 1);
            itemSize props * activeIndex s1;
            itemSize props * clamp (activeIndex s1 + 1) 0 (length props - 1)]).
  exists toScroll.
  exists (negb (Qeq_bool toScroll (itemSize props * activeIndex s1))).
  split.
  - assert (Hin : In toScroll
                    [itemSize props
                     * clamp (activeIndex s1 - 1) 0 (length props - 1);
                     itemSize props * activeIndex s1;
                     itemSize props
                     * clamp (activeIndex s1 + 1) 0 (length props - 1)])
      by (apply snapPoint_In; discriminate).
    rewrite Ha in Hin. cbn [In] in Hin. fold index in Hin.
    fold prev current next in Hin.
    destruct Hin as [Hin | [Hin | [Hin | []]]]; rewrite <- Hin; auto.
  - unfold snapToScrollPosition. fold toScroll.
    destruct (negb (Qeq_bool toScroll (itemSize props * activeIndex s1)));
      cbn; rewrite Hv; reflexivity.
Qed.

(** X7: when the animation started by snapToScrollPosition ends, activeIndex
    takes the value of fetchIndex and scrolling is over; a snap back to the
    current item leaves both transforms as they were (the zoom is kept), a
    snap to a neighbour moves activeIndex by one and resets both transforms
    to rest. *)
Theorem snap_completion (e : PanGestureEvent) (finished : bool) (st : State) :
  let index := activeIndex st in
  let current := itemSize props * index in
  let toScroll :=
    snapPoint (value (scroll st))
      (if vertical props then velocityY e else velocityX e)
      [itemSize props * clamp (index - 1) 0 (length props - 1);
       current;
       itemSize props * clamp (index + 1) 0 (length props - 1)] in
  let st1 := snapToScrollPosition clamp snapPoint props e st in
  let st2 := scroll_animation_end finished st1 in
  activeIndex st2 = fetchIndex st1
  /\ fetchIndex st2 = fetchIndex st1
  /\ isScrolling st2 = false
  /\ animation (scroll st2) = None
  /\ (finished = true -> value (scroll st2) = toScroll)
  /\ (toScroll == current ->
      activeIndex st2 = fetchIndex st
      /\ translate st2 = translate st
      /\ scale st2 = scale st
      /\ detectorTranslate st2 = detectorTranslate st
      /\ detectorScale st2 = detectorScale st)
  /\ (~ toScroll == current ->
      (activeIndex st2 = index + 1 \/ activeIndex st2 = index + -1)
      /\ at_rest st2).
Proof.
  intros index current toScroll st1 st2.
  unfold st2, st1, snapToScrollPosition.
  fold index. fold current. fold toScroll.
  destruct (Qeq_bool toScroll current) eqn:Hcur; cbn [negb].
  - apply Qeq_bool_iff in Hcur.
    split; [reflexivity |]. split; [reflexivity |]. split; [reflexivity |].
    split; [reflexivity |].
    split; [intros Hf; rewrite Hf; reflexivity |].
    split; [intros _; repeat split; reflexivity |].
    intros Hne; contradiction.
  - apply Qeq_bool_neq in Hcur.
    split; [reflexivity |]. split; [reflexivity |]. split; [reflexivity |].
    split; [reflexivity |].
    split; [intros Hf; rewrite Hf; reflexivity |].
    split; [intros Heq; contradiction |].
    intros _. split.
    + destruct (Qeq_bool toScroll _); [left | right]; reflexivity.
    + repeat split; reflexivity.
Qed.

Lemma reset_synced (toX toY toScale : Q) (animate : bool) (st : State) :
  synced (reset toX toY toScale animate st).
Proof. destruct animate; split; reflexivity. Qed.

(** X8: if the detector transform holds the same cells as the rendered
    transform, it still does after pan.onStart, after a pan update or a pan
    end outside a vertical pull, after a double tap, a tap, the root size
    reaction and the end of the scroll animation. *)
Theorem handlers_keep_detector_synced (st : State) :
  synced st ->
  (forall now e, synced (fst (pan_onStart props now e st)))
  /\ (forall e, isPullingVertical st = false ->
                synced (pan_onUpdate clamp props e st))
  /\ (forall e, isPullingVertical st = false ->
                synced (fst (pan_onEnd clamp snapPoint getSwipeDirection
                               props e st)))
  /\ (forall e, synced (doubleTap_onEnd clamp pinchTransform props e st))
  /\ (forall e, synced (fst (tap_onEnd clamp crop props tapProps e st)))
  /\ synced (rootSize_reaction st)
  /\ (forall finished, synced (scroll_animation_end finished st)).
Proof.
  intros [Ht Hs].
  split; [| split; [| split; [| split; [| split; [| split]]]]].
  - intros now e. unfold pan_onStart, synced; cbn. rewrite Ht, Hs. auto.
  - intros e Hpull.
    destruct (pan_onUpdate_keeps e st Hpull) as (_ & Hs1 & Hds1 & _ & _ & Hd1).
    split; [exact Hd1 |]. rewrite Hs1, Hds1. exact Hs.
  - intros e Hpull.
    destruct (pan_onEnd_cells e st Hpull) as (Ht' & Hd' & Hs' & Hds').
    split; [rewrite Ht', Hd', Ht; reflexivity |].
    rewrite Hs', Hds'. exact Hs.
  - intros e. apply reset_synced.
  - intros e. unfold tap_onEnd.
    destruct (Qeq_bool _ _ && onTap tapProps); cbn [fst].
    + split; assumption.
    + apply reset_synced.
  - apply reset_synced.
  - intros finished. unfold scroll_animation_end, end_animation.
    destruct (animation (scroll st)) as [[toValue cfg [[[] | t |] |] | v lo hi] |];
      cbn [run_callback];
      try apply reset_synced; split; assumption.
Qed.

(** X9: pan.onEnd during a vertical pull does not call onPanEnd, sets
    pullReleased, animates translate.y back to 0 and leaves translate.x, the
    detector and both scales alone.  When that animation finishes the pull is
    over (both flags false, translate.y at 0) and the reaction no longer calls
    onVerticalPull; when it is interrupted both flags stay true. *)
Theorem pull_release_lifecycle (e : PanGestureEvent) (st : State) :
  isPullingVertical st = true ->
  let r := pan_onEnd clamp snapPoint getSwipeDirection props e st in
  let st1 := fst r in
  (forall e', ~ In (CallPanEnd e') (snd r))
  /\ isPullingVertical st1 = true
  /\ pullReleased st1 = true
  /\ y (translate st1)
     = assign (y (translate st))
         (Animated (withTiming 0 None (Some PullCallback)))
  /\ x (translate st1) = x (translate st)
  /\ detectorTranslate st1 = detectorTranslate st
  /\ scale st1 = scale st
  /\ detectorScale st1 = detectorScale st
  /\ (let st2 := translateY_animation_end true st1 in
      isPullingVertical st2 = false
      /\ pullReleased st2 = false
      /\ y (translate st2) = useSharedValue 0
      /\ verticalPull_reaction props st2 = [])
  /\ (let st2 := translateY_animation_end false st1 in
      isPullingVertical st2 = true
      /\ pullReleased st2 = true
      /\ value (y (translate st2)) = value (y (translate st))).
Proof.
  intros Hpull r st1. unfold st1, r, pan_onEnd.
  set (direction := getSwipeDirection e _).
  set (s1 := match direction with Some d => onSwipe clamp props d st
                             | None => st end).
  assert (Hs1 : translate s1 = translate st
                /\ detectorTranslate s1 = detectorTranslate st
                /\ scale s1 = scale st
                /\ detectorScale s1 = detectorScale st
                /\ isPullingVertical s1 = true).
  { unfold s1. destruct direction as [d |]; [| auto 6].
    destruct (onSwipe_frame clamp props d st) as (Ht & Hd & Hs & Hds & Hp).
    rewrite Ht, Hd, Hs, Hds, Hp. auto 6. }
  destruct Hs1 as (Ht & Hd & Hs & Hds & Hp). rewrite Hp.
  cbn [fst snd].
  split.
  { intros e' Hin.
    destruct direction; [destruct (onUserSwipe props) |];
      cbn in Hin; intuition discriminate. }
  split; [exact Hp |]. split; [reflexivity |].
  split; [cbn; rewrite Ht; reflexivity |].
  split; [cbn; rewrite Ht; reflexivity |].
  split; [exact Hd |]. split; [exact Hs |]. split; [exact Hds |].
  split.
  - split; [reflexivity |]. split; [reflexivity |]. split; [reflexivity |].
    unfold verticalPull_reaction.
    cbn. rewrite andb_false_r. reflexivity.
  - split; [reflexivity |]. split; [reflexivity |].
    cbn. rewrite Ht. reflexivity.
Qed.

(** X10: in a horizontal gallery at scale 1, a pan that starts faster
    vertically than horizontally is a pull: the next update moves only
    translate.y, and the reaction calls onVerticalPull with the raw
    translationY and the pullReleased flag as it was before the gesture. *)
Theorem pull_reports_translation
        (now : Q) (e0 e : PanGestureEvent) (st : State) :
  vertical props = false ->
  onVerticalPull props = true ->
  value (scale st) == 1 ->
  Qabs (velocityX e0) < Qabs (velocityY e0) ->
  let st0 := fst (pan_onStart props now e0 st) in
  let st1 := pan_onUpdate clamp props e st0 in
  verticalPull_reaction props st1
  = [CallVerticalPull (translationY e) (pullReleased st)]
  /\ scroll st1 = scroll st
  /\ value (x (translate st1)) = value (x (translate st))
  /\ scale st1 = scale st.
Proof.
  intros Hv Hcb Hs Hvel st0 st1.
  assert (Hp : isPullingVertical st0 = true).
  { unfold st0, pan_onStart; cbn. rewrite Hv.
    apply Qeq_bool_iff in Hs. rewrite Hs.
    unfold Qgt_bool.
    destruct (Qle_bool (Qabs (velocityY e0)) (Qabs (velocityX e0))) eqn:Hle;
      [| reflexivity].
    apply Qle_bool_iff in Hle. exfalso. exact (Qlt_not_le _ _ Hvel Hle). }
  unfold st1, pan_onUpdate. rewrite Hp.
  split; [| repeat split; reflexivity].
  unfold verticalPull_reaction.
  change (isPullingVertical (write_translate_y (Plain (translationY e)) st0))
    with (isPullingVertical st0).
  rewrite Hp, Hv, Hcb. cbn.
  apply Qeq_bool_iff in Hs. rewrite Hs. reflexivity.
Qed.

Lemma doubleTap_settled_cells (e : TapGestureEvent) (st : State) :
  let st2 := settle (doubleTap_onEnd clamp pinchTransform props e st) in
  let toScale := doubleTap_toScale props st in
  let bounds := boundsFn st toScale in
  scale st2 = useSharedValue toScale
  /\ detectorTranslate st2 = translate st2
  /\ detectorScale st2 = scale st2
  /\ animation (x (translate st2)) = None
  /\ animation (y (translate st2)) = None
  /\ exists vx vy,
      value (x (translate st2)) = clamp vx (-1 * x bounds) (x bounds)
      /\ value (y (translate st2)) = clamp vy (-1 * y bounds) (y bounds).
Proof.
  intros st2 toScale bounds.
  split; [reflexivity |]. split; [reflexivity |]. split; [reflexivity |].
  split; [reflexivity |]. split; [reflexivity |].
  eexists. eexists. split; reflexivity.
Qed.

(** X11: when 0.8 * maxScale exceeds 1, double taps toggle the zoom: once
    the animations of a double tap have reached their targets the scale is
    minScale if it was at least 0.8 * maxScale and maxScale otherwise, and
    the next double tap aims at the other one. *)
Theorem doubleTap_toggles (e : TapGestureEvent) (st : State) :
  1 < maxScale props * (8 # 10) ->
  let st2 := settle (doubleTap_onEnd clamp pinchTransform props e st) in
  value (scale st2) = doubleTap_toScale props st
  /\ (maxScale props * (8 # 10) <= value (scale st) ->
      value (scale st2) = minScale
      /\ doubleTap_toScale props st2 = maxScale props)
  /\ (value (scale st) < maxScale props * (8 # 10) ->
      value (scale st2) = maxScale props
      /\ doubleTap_toScale props st2 = minScale).
Proof.
  intros Hmax st2.
  destruct (doubleTap_settled_cells e st) as (Hs & _). fold st2 in Hs.
  split; [rewrite Hs; reflexivity |].
  split.
  - intros Hge.
    assert (Ht : doubleTap_toScale props st = minScale).
    { unfold doubleTap_toScale. apply Qle_bool_iff in Hge. rewrite Hge.
      reflexivity. }
    split; [rewrite Hs, Ht; reflexivity |].
    unfold doubleTap_toScale at 1. rewrite Hs, Ht. cbn [value useSharedValue].
    destruct (Qle_bool (maxScale props * (8 # 10)) minScale) eqn:Hle;
      [| reflexivity].
    apply Qle_bool_iff in Hle. unfold minScale in Hle. lra.
  - intros Hlt.
    assert (Ht : doubleTap_toScale props st = maxScale props).
    { unfold doubleTap_toScale.
      destruct (Qle_bool (maxScale props * (8 # 10)) (value (scale st)))
        eqn:Hle; [| reflexivity].
      apply Qle_bool_iff in Hle. lra. }
    split; [rewrite Hs, Ht; reflexivity |].
    unfold doubleTap_toScale at 1. rewrite Hs, Ht. cbn [value useSharedValue].
    assert (Hle : maxScale props * (8 # 10) <= maxScale props) by lra.
    apply Qle_bool_iff in Hle. rewrite Hle. reflexivity.
Qed.

(** X12: a double tap that zooms out (scale at least 0.8 * maxScale) on a
    child that fits inside the root sends both translations to 0 and the
    scale to minScale, on the detector as on the rendered transform. *)
Theorem doubleTap_zoom_out_recentres (e : TapGestureEvent) (st : State) :
  maxScale props * (8 # 10) <= value (scale st) ->
  width (rootChildSize st) <= width (rootSize st) ->
  height (rootChildSize st) <= height (rootSize st) ->
  let st1 := doubleTap_onEnd clamp pinchTransform props e st in
  let st2 := settle st1 in
  (exists toX toY,
      toX == 0 /\ toY == 0
      /\ animation (x (translate st1)) = Some (withTiming toX None None)
      /\ animation (y (translate st1)) = Some (withTiming toY None None)
      /\ animation (scale st1) = Some (withTiming minScale None None))
  /\ value (x (translate st2)) == 0
  /\ value (y (translate st2)) == 0
  /\ scale st2 = useSharedValue minScale
  /\ detectorTranslate st2 = translate st2
  /\ detectorScale st2 = scale st2.
Proof.
  intros Hge Hw Hh st1 st2.
  assert (Ht : doubleTap_toScale props st = minScale).
  { unfold doubleTap_toScale. apply Qle_bool_iff in Hge. rewrite Hge.
    reflexivity. }
  assert (Hbx : x (boundsFn st minScale) == 0).
  { unfold boundsFn; cbn [x]. apply half_max_fits. unfold minScale. lra. }
  assert (Hby : y (boundsFn st minScale) == 0).
  { unfold boundsFn; cbn [y]. apply half_max_fits. unfold minScale. lra. }
  assert (Hpin : forall b v, b == 0 -> clamp v (-1 * b) b == 0).
  { intros b v Hb.
    assert (Hle : -1 * b <= b) by lra.
    destruct (clamp_range v _ _ Hle). lra. }
  unfold st2, st1, doubleTap_onEnd. rewrite Ht.
  split.
  - eexists. eexists.
    split; [| split; [| split; [reflexivity | split; reflexivity]]].
    + apply Hpin, Hbx.
    + apply Hpin, Hby.
  - split; [apply Hpin, Hbx |]. split; [apply Hpin, Hby |].
    repeat split; reflexivity.
Qed.

(** X13: the reaction on the root size puts both transforms at rest
    (translation 0, scale minScale, no animation), is idempotent, and leaves
    the indices, scroll, the pan offsets and the pull flags alone. *)
Theorem rootSize_reaction_rests (st : State) :
  let st' := rootSize_reaction st in
  at_rest st'
  /\ rootSize_reaction st' = st'
  /\ activeIndex st' = activeIndex st
  /\ fetchIndex st' = fetchIndex st
  /\ scroll st' = scroll st
  /\ scrollOffset st' = scrollOffset st
  /\ isScrolling st' = isScrolling st
  /\ offset st' = offset st
  /\ isPullingVertical st' = isPullingVertical st
  /\ pullReleased st' = pullReleased st.
Proof.
  intros st'. split; [repeat split; reflexivity |].
  split.
  - unfold st', rootSize_reaction. destruct st. vm_compute. reflexivity.
  - repeat split; reflexivity.
Qed.

Lemma tapTarget_near (e : TapGestureEvent) (st : State) :
  activeIndex st - 1 <= tapTarget crop props tapProps e st
  /\ tapTarget crop props tapProps e st <= activeIndex st + 1.
Proof.
  unfold tapTarget.
  destruct (Qle_bool (tapX e) _ && _), (Qle_bool _ (tapX e) && _); lra.
Qed.

Lemma tapTarget_no_edges (e : TapGestureEvent) (st : State) :
  vertical props = true \/ tapOnEdgeToItem tapProps = false ->
  tapTarget crop props tapProps e st = activeIndex st.
Proof.
  intros Hno. unfold tapTarget.
  assert (Hcan : tapOnEdgeToItem tapProps && negb (vertical props) = false).
  { destruct Hno as [Hv | Ht]; [rewrite Hv | rewrite Ht];
      [apply andb_false_r | reflexivity]. }
  rewrite Hcan, !andb_false_r. reflexivity.
Qed.

(** X14: in a vertical gallery, or with taps on the edges disabled, a tap
    never changes the item.  With an onTap callback it only calls it with the
    active index; without one it falls through: activeIndex and fetchIndex
    become clamp(activeIndex, 0, length - 1), scroll jumps to that item and
    both transforms are reset to rest. *)
Theorem tap_without_edge_navigation (e : TapGestureEvent) (st : State) :
  vertical props = true \/ tapOnEdgeToItem tapProps = false ->
  let r := tap_onEnd clamp crop props tapProps e st in
  let toIndex := clamp (activeIndex st) 0 (length props - 1) in
  (onTap tapProps = true -> r = (st, [CallTap e (activeIndex st)]))
  /\ (onTap tapProps = false ->
      snd r = []
      /\ activeIndex (fst r) = toIndex
      /\ fetchIndex (fst r) = toIndex
      /\ scroll (fst r) = useSharedValue (toIndex * itemSize props)
      /\ at_rest (fst r)).
Proof.
  intros Hno r toIndex. unfold r, tap_onEnd.
  rewrite (tapTarget_no_edges e st Hno).
  assert (Hq : Qeq_bool (activeIndex st) (activeIndex st) = true)
    by (apply Qeq_bool_iff; reflexivity).
  rewrite Hq. split; intros Hcb; rewrite Hcb; cbn [andb].
  - reflexivity.
  - split; [reflexivity |]. split; [reflexivity |]. split; [reflexivity |].
    split; [reflexivity |]. repeat split; reflexivity.
Qed.

(** X15: from an active index inside the gallery, a tap either only calls
    onTap, or lands on an index inside the gallery at most one item away,
    with fetchIndex equal to it, scroll set (without animation) to its offset
    and both transforms at rest. *)
Theorem tap_moves_at_most_one_item (e : TapGestureEvent) (st : State) :
  0 <= activeIndex st -> activeIndex st <= length props - 1 ->
  let r := tap_onEnd clamp crop props tapProps e st in
  let st' := fst r in
  r = (st, [CallTap e (activeIndex st)])
  \/ (snd r = []
      /\ fetchIndex st' = activeIndex st'
      /\ 0 <= activeIndex st'
      /\ activeIndex st' <= length props - 1
      /\ activeIndex st - 1 <= activeIndex st'
      /\ activeIndex st' <= activeIndex st + 1
      /\ scroll st' = useSharedValue (activeIndex st' * itemSize props)
      /\ isScrolling st' = isScrolling st
      /\ at_rest st').
Proof.
  clear length_whole length_pos itemSize_nonneg clamp_range snapPoint_In.
  intros Hlo Hhi r st'. unfold st', r, tap_onEnd.
  destruct (Qeq_bool _ _ && onTap tapProps); [left; reflexivity | right].
  cbn [fst snd].
  destruct (tapTarget_near e st) as [Hn1 Hn2].
  assert (Hlen : 0 <= length props - 1) by lra.
  set (t := clamp (tapTarget crop props tapProps e st) 0 (length props - 1)).
  assert (Ht : 0 <= t /\ t <= length props - 1
               /\ activeIndex st - 1 <= t /\ t <= activeIndex st + 1).
  { unfold t.
    destruct (clamp_cases (tapTarget crop props tapProps e st) 0
                (length props - 1) Hlen)
      as [[H1 H2] | [(H1 & H2 & H3) | [H1 H2]]]; repeat split; lra. }
  destruct Ht as (T1 & T2 & T3 & T4).
  split; [reflexivity |]. split; [reflexivity |].
  split; [exact T1 |]. split; [exact T2 |].
  split; [exact T3 |]. split; [exact T4 |].
  split; [reflexivity |]. split; [reflexivity |]. repeat split; reflexivity.
Qed.

End ReflectionRuns.

(** ** The further properties at the sample inputs *)







Lemma pan_onUpdate_splits_pan_witness :
  isPullingVertical sample_state = false
  /\ vertical sample_props = false
  /\ value (x (translate (pan_onUpdate clamp_model sample_props sample_pan
                            sample_state)))
     - (value (scroll (pan_onUpdate clamp_model sample_props sample_pan
                         sample_state))
        - scrollOffset sample_state)
     == x (offset sample_state) + translationX sample_pan.
Proof.
  split; [reflexivity |]. split; [reflexivity |].
  destruct (pan_onUpdate_splits_pan clamp_model sample_props clamp_model_cases
              sample_pan sample_state eq_refl) as [Hh _].
  destruct (Hh eq_refl) as [_ Hout].
  apply Hout. split; apply Qle_bool_iff; reflexivity.
Defined.

Lemma pan_is_relative_to_its_start_witness :
  isPullingVertical (fst (pan_onStart sample_props 0 sample_pan sample_state))
  = false
  /\ value
       (x (translate
             (pan_onUpdate clamp_model sample_props sample_pan_small
                (fst (pan_onStart sample_props 0 sample_pan sample_state)))))
     = clamp_model
         (value (x (translate sample_state)) + translationX sample_pan_small)
         (-1 * x (boundsFn sample_state (value (scale sample_state))))
         (x (boundsFn sample_state (value (scale sample_state)))).
Proof.
  split; [reflexivity |].
  exact (proj1 (pan_is_relative_to_its_start clamp_model sample_props
                  clamp_model_cases 0 sample_pan sample_pan_small sample_state
                  eq_refl)).
Defined.

Lemma decay_starts_inside_its_clamp_witness :
  isPullingVertical sample_state = false
  /\ animation
       (x (translate
             (fst (pan_onEnd clamp_model snapPoint_model
                     getSwipeDirection_model sample_props sample_pan
                     (pan_onUpdate clamp_model sample_props sample_pan
                        sample_state)))))
     = Some (withDecay (velocityX sample_pan)
               (- x (boundsFn sample_state (value (scale sample_state))))
               (x (boundsFn sample_state (value (scale sample_state))))).
Proof.
  split; [reflexivity |].
  exact (proj1 (decay_starts_inside_its_clamp clamp_model snapPoint_model
                  getSwipeDirection_model sample_props clamp_model_range
                  sample_pan sample_pan sample_state eq_refl)).
Defined.

Lemma pan_end_without_swipe_snaps_witness :
  isPullingVertical sample_state = false
  /\ exists toScroll changed,
      scroll (fst (pan_onEnd clamp_model snapPoint_model
                     getSwipeDirection_model sample_props sample_pan_small
                     sample_state))
      = {| value := value (scroll sample_state);
           animation :=
             Some (withTiming toScroll (Some config)
                     (Some (SnapCallback changed))) |}.
Proof.
  split; [reflexivity |].
  destruct (pan_end_without_swipe_snaps clamp_model snapPoint_model
              getSwipeDirection_model sample_props snapPoint_model_In
              sample_pan_small sample_state eq_refl I)
    as (toScroll & changed & _ & Hs).
  exists toScroll, changed. exact Hs.
Defined.

Lemma handlers_keep_detector_synced_witness :
  synced sample_state
  /\ synced (pan_onUpdate clamp_model sample_props sample_pan sample_state).
Proof.
  assert (Hs : synced sample_state) by (split; reflexivity).
  split; [exact Hs |].
  destruct (handlers_keep_detector_synced clamp_model snapPoint_model
              pinchTransform_model getSwipeDirection_model crop_model
              sample_props sample_tapProps sample_state Hs)
    as (_ & Hu & _).
  exact (Hu sample_pan eq_refl).
Defined.

Lemma pull_release_lifecycle_witness :
  isPullingVertical sample_pulling = true
  /\ verticalPull_reaction sample_props
       (translateY_animation_end true
          (fst (pan_onEnd clamp_model snapPoint_model getSwipeDirection_model
                  sample_props sample_pan_down sample_pulling)))
     = [].
Proof.
  split; [reflexivity |].
  destruct (pull_release_lifecycle clamp_model snapPoint_model
              getSwipeDirection_model sample_props sample_pan_down
              sample_pulling eq_refl)
    as (_ & _ & _ & _ & _ & _ & _ & _ & (_ & _ & _ & Hr) & _).
  exact Hr.
Defined.

Lemma pull_reports_translation_witness :
  verticalPull_reaction sample_props
    (pan_onUpdate clamp_model sample_props sample_pan_down
       (fst (pan_onStart sample_props 0 sample_pan_down sample_pulling)))
  = [CallVerticalPull (translationY sample_pan_down)
       (pullReleased sample_pulling)].
Proof.
  refine (proj1 (pull_reports_translation clamp_model sample_props 0
                   sample_pan_down sample_pan_down sample_pulling
                   eq_refl eq_refl _ _)).
  - reflexivity.
  - reflexivity.
Defined.

Lemma doubleTap_toggles_witness :
  1 < maxScale sample_props * (8 # 10)
  /\ value (scale (settle (doubleTap_onEnd clamp_model pinchTransform_model
                             sample_props sample_tap sample_state)))
     = maxScale sample_props
  /\ doubleTap_toScale sample_props
       (settle (doubleTap_onEnd clamp_model pinchTransform_model sample_props
                  sample_tap sample_state))
     = minScale.
Proof.
  assert (Hmax : 1 < maxScale sample_props * (8 # 10)) by reflexivity.
  split; [exact Hmax |].
  destruct (doubleTap_toggles clamp_model pinchTransform_model sample_props
              sample_tap sample_state Hmax) as (_ & _ & Hin).
  apply Hin. reflexivity.
Defined.

Lemma doubleTap_zoom_out_recentres_witness :
  maxScale sample_props * (8 # 10) <= value (scale sample_zoomed)
  /\ value (x (translate
                 (settle (doubleTap_onEnd clamp_model pinchTransform_model
                            sample_props sample_tap sample_zoomed))))
     == 0.
Proof.
  assert (Hge : maxScale sample_props * (8 # 10) <= value (scale sample_zoomed))
    by (apply Qle_bool_iff; reflexivity).
  split; [exact Hge |].
  destruct (doubleTap_zoom_out_recentres clamp_model pinchTransform_model
              sample_props clamp_model_range sample_tap sample_zoomed Hge)
    as (_ & Hx & _).
  - apply Qle_bool_iff; reflexivity.
  - apply Qle_bool_iff; reflexivity.
  - exact Hx.
Defined.

Lemma tap_without_edge_navigation_witness :
  tapOnEdgeToItem sample_tapProps_silent = false
  /\ at_rest (fst (tap_onEnd clamp_model crop_model sample_props
                     sample_tapProps_silent sample_tap sample_state)).
Proof.
  split; [reflexivity |].
  destruct (tap_without_edge_navigation clamp_model crop_model sample_props
              sample_tapProps_silent sample_tap sample_state
              (or_intror eq_refl)) as [_ Hsilent].
  destruct (Hsilent eq_refl) as (_ & _ & _ & _ & Hrest).
  exact Hrest.
Defined.

Lemma tap_moves_at_most_one_item_witness :
  0 <= activeIndex sample_state
  /\ activeIndex sample_state <= length sample_props - 1
  /\ (tap_onEnd clamp_model crop_model sample_props sample_tapProps sample_tap
        sample_state
      = (sample_state, [CallTap sample_tap (activeIndex sample_state)])
      \/ activeIndex sample_state - 1
         <= activeIndex
              (fst (tap_onEnd clamp_model crop_model sample_props
                      sample_tapProps sample_tap sample_state))).
Proof.
  assert (Hlo : 0 <= activeIndex sample_state)
    by (apply Qle_bool_iff; reflexivity).
  assert (Hhi : activeIndex sample_state <= length sample_props - 1)
    by (apply Qle_bool_iff; reflexivity).
  split; [exact Hlo |]. split; [exact Hhi |].
  destruct (tap_moves_at_most_one_item clamp_model crop_model sample_props
              sample_tapProps clamp_model_cases sample_tap sample_state
              Hlo Hhi) as [Hcall | (_ & _ & _ & _ & Hnear & _)].
  - left; exact Hcall.
  - right; exact Hnear.
Defined.

Lemma snap_completion_witness :
  translate
    (scroll_animation_end true
       (snapToScrollPosition clamp_model snapPoint_model sample_props
          sample_pan sample_state))
  = translate sample_state.
Proof.
  destruct (snap_completion clamp_model snapPoint_model sample_props
              sample_pan true sample_state)
    as (_ & _ & _ & _ & _ & Hback & _).
  apply Hback. vm_compute. reflexivity.
Defined.
